(** * ShopGenie-E: the ranking engine (catalog filter, feature normalizer,
      weight resolver, scorer)

    Shallow embedding of [app/agents/retrieval_agent.py] and
    [app/agents/reasoner_agent.py].

    Conventions of the embedding.
    - Python floats are exact rationals ([Q]); a missing value (pandas NaN)
      is a separate cell constructor. Rounding error of binary floating
      point and the non-finite floats are outside the model. Numeric
      statements use [==] (equality of rationals).
    - Python [str] is [string] (a byte string); [lower] and [strip] act on
      ASCII letters and ASCII white space.
    - A Python [dict] read by key is a [gmap]; the weight dictionary, whose
      iteration order feeds [sum] and the dict comprehensions, is an
      association list in insertion order.
    - An exception is a [Raise] result; the text-generation service is a
      function on an explicit world state.
    - Library calls whose result is not fixed by the repository
      ([float], [str] on a non-string, numpy's [argsort]) are parameters
      of a Section. *)

From Stdlib Require Import QArith Qabs Qminmax Qround Lqa ZArith Lia.
From Stdlib Require Import Ascii String Permutation Sorted.
From stdpp Require Import gmap strings list sorting.

Open Scope Q_scope.

(** ** Python strings *)

Module PyStr.

Definition lower_ascii (c : ascii) : ascii :=
  let n := nat_of_ascii c in
  if ((65 <=? n)%nat && (n <=? 90)%nat)%bool then ascii_of_nat (n + 32) else c.

(** [s.lower()] *)
Fixpoint lower (s : string) : string :=
  match s with
  | EmptyString => EmptyString
  | String c s' => String (lower_ascii c) (lower s')
  end.

(** [needle in hay] *)
Fixpoint contains (needle hay : string) : bool :=
  (String.prefix needle hay
   || match hay with
      | EmptyString => false
      | String _ hay' => contains needle hay'
      end)%bool.

Definition is_space (c : ascii) : bool :=
  let n := nat_of_ascii c in
  ((n =? 32)%nat || ((9 <=? n)%nat && (n <=? 13)%nat)
   || ((28 <=? n)%nat && (n <=? 31)%nat))%bool.

Fixpoint lstrip (s : string) : string :=
  match s with
  | EmptyString => EmptyString
  | String c s' => if is_space c then lstrip s' else s
  end.

(** Drops the trailing white space: a character is kept when something
    that is not white space follows it or it is none itself. *)
Fixpoint rstrip (s : string) : string :=
  match s with
  | EmptyString => EmptyString
  | String c s' =>
      match rstrip s' with
      | EmptyString => if is_space c then EmptyString else String c EmptyString
      | r => String c r
      end
  end.

(** [s.strip()] *)
Definition strip (s : string) : string := rstrip (lstrip s).

(** [s.replace(c, empty)]: every occurrence of the character [c] is dropped *)
Fixpoint remove_char (c : ascii) (s : string) : string :=
  match s with
  | EmptyString => EmptyString
  | String d s' =>
      if Ascii.eqb c d then remove_char c s' else String d (remove_char c s')
  end.

(** [sep.join(l)] *)
Fixpoint join (sep : string) (l : list string) : string :=
  match l with
  | [] => EmptyString
  | [s] => s
  | s :: l' => s +:+ sep +:+ join sep l'
  end.

(** [bool(s)] *)
Definition nonempty (s : string) : bool :=
  match s with EmptyString => false | _ => true end.

End PyStr.

(** ** Python values and exceptions *)

(** The values [json.loads] produces. *)
#[warnings="-register-all"]
Inductive pyval : Type :=
| PNone
| PBool (b : bool)
| PNum (q : Q)
| PStr (s : string)
| PList (l : list pyval)
| PDict (d : list (string * pyval)).

(** [bool(v)], as used by [x or y]. *)
Definition truthy (v : pyval) : bool :=
  match v with
  | PNone => false
  | PBool b => b
  | PNum q => negb (Qeq_bool q 0)
  | PStr s => PyStr.nonempty s
  | PList l => match l with [] => false | _ => true end
  | PDict d => match d with [] => false | _ => true end
  end.

Inductive exn : Type :=
| TypeError
| AttributeError
| KeyError
| IndexError.

Inductive result (A : Type) : Type :=
| Ok (a : A)
| Raise (e : exn).
Arguments Ok {A} a.
Arguments Raise {A} e.

(** Sequencing of calls that may raise, with stdpp's [x ← r; k]. *)
#[global] Instance result_bind : MBind result :=
  fun A B (k : A → result B) (r : result A) =>
    match r with
    | Ok a => k a
    | Raise e => Raise e
    end.

(** The intent record: a dict keyed by field name. *)
Abbreviation Intent := (gmap string pyval).

(** ** Weight resolver: [_compute_weights] *)

(** The weight dictionary in insertion order. *)
Abbreviation Weights := (list (string * Q)).

(** [weights[k]] of a key that is present; [0] stands for the [KeyError]
    of an absent one. *)
Fixpoint weight_of (k : string) (w : Weights) : Q :=
  match w with
  | [] => 0
  | (k', v) :: w' => if String.eqb k' k then v else weight_of k w'
  end.

(** [sum(weights.values())]: a left fold from [0]. *)
Definition sum_values (w : Weights) : Q :=
  fold_left Qplus (map snd w) 0.

Definition portable (category : string) : bool :=
  (String.eqb category "laptop" || String.eqb category "tablet"
   || String.eqb category "phone")%bool.

Definition base_weights (category : string) : Weights :=
  if portable category then
    [("price", 0.30); ("performance", 0.40); ("battery", 0.30); ("screen", 0.00)]
  else
    [("price", 0.40); ("performance", 0.10); ("battery", 0.00); ("screen", 0.50)].

(** The local function [bump]: [if key in weights: weights[key] += delta]. *)
Definition bump (key : string) (delta : Q) (w : Weights) : Weights :=
  map (fun kv => if String.eqb (fst kv) key then (fst kv, snd kv + delta) else kv) w.

Definition delta : Q := 0.15.

(** The four keyword tests of the loop body, on a lower-cased goal. *)
Definition hits_performance (g : string) : bool :=
  (PyStr.contains "performance" g || PyStr.contains "speed" g
   || PyStr.contains "gaming" g)%bool.
Definition hits_battery (g : string) : bool :=
  (PyStr.contains "battery" g || PyStr.contains "long life" g
   || PyStr.contains "all day" g)%bool.
Definition hits_price (g : string) : bool :=
  (PyStr.contains "budget" g || PyStr.contains "cheap" g
   || PyStr.contains "affordable" g || PyStr.contains "price" g)%bool.
Definition hits_screen (g : string) : bool :=
  (PyStr.contains "screen" g || PyStr.contains "display" g
   || PyStr.contains "bigger" g)%bool.

(** One iteration of [for g in goals]. *)
Definition bump_goal (w : Weights) (g : string) : Weights :=
  let w1 := if hits_performance g then bump "performance" delta w else w in
  let w2 := if hits_battery g then bump "battery" delta w1 else w1 in
  let w3 := if hits_price g then bump "price" delta w2 else w2 in
  if hits_screen g then bump "screen" delta w3 else w3.

(** The weights after the loop, before they are normalized. *)
Definition bumped_weights (category : string) (goals : list string) : Weights :=
  fold_left bump_goal goals (base_weights category).

(** The last five lines of [_compute_weights]. *)
Definition normalize_weights (w : Weights) : Weights :=
  let total := sum_values w in
  if Qle_bool total 0 then
    map (fun kv => (fst kv, 1 / inject_Z (Z.of_nat (length w)))) w
  else
    map (fun kv => (fst kv, snd kv / total)) w.

Section WeightResolver.

(** [str(v)] of a value that is not a string. *)
Variable py_repr : pyval → string.

Definition py_str (v : pyval) : string :=
  match v with
  | PStr s => s
  | _ => py_repr v
  end.

(** [intent.get("primary_goals") or []] *)
Definition goals_raw (intent : Intent) : pyval :=
  match intent !! "primary_goals" with
  | Some v => if truthy v then v else PList []
  | None => PList []
  end.

(** The goal strings: a bare string is one goal, a list gives [str] of
    each element, a dict iterates its keys, anything else that is truthy
    (a number, [True]) is not iterable. *)
Definition goal_strings (intent : Intent) : result (list string) :=
  match goals_raw intent with
  | PStr s => Ok [s]
  | PList l => Ok (map py_str l)
  | PDict d => Ok (map fst d)
  | _ => Raise TypeError
  end.

Definition _compute_weights (intent : Intent) (category : string)
  : result Weights :=
  goals ← goal_strings intent;
  Ok (normalize_weights (bumped_weights category (map PyStr.lower goals))).

End WeightResolver.

(** ** Tables: cells, rows, data frames *)

Inductive cell : Type :=
| CNaN
| CNum (q : Q)
| CStr (s : string).

Abbreviation Row := (gmap string cell).

(** A data frame: its column labels and its rows in index order. A row
    holds the cells by column label; a label it lacks reads as NaN. *)
Record DataFrame : Type := {
  df_columns : list string;
  df_rows : list Row
}.

Definition cell_at (r : Row) (col : string) : cell :=
  default CNaN (r !! col).

(** [col in df.columns] *)
Definition has_column (df : DataFrame) (col : string) : bool :=
  bool_decide (col ∈ df_columns df).

(** [df[col]] *)
Definition column (df : DataFrame) (col : string) : list cell :=
  map (fun r => cell_at r col) (df_rows df).

(** [df.empty]: one of the two axes has length 0. *)
Definition df_empty (df : DataFrame) : bool :=
  match df_columns df, df_rows df with
  | [], _ => true
  | _, [] => true
  | _, _ => false
  end.

(** [row.get(k)] on a row of [df.iterrows()]. *)
Definition row_get (df : DataFrame) (r : Row) (k : string) : option cell :=
  if has_column df k then Some (cell_at r k) else None.

(** ** Feature normalizer: [_normalize_series] *)

(** [math.isclose(a, b)] with its defaults [rel_tol=1e-09], [abs_tol=0.0]. *)
Definition rel_tol : Q := 1 # 1000000000.
Definition abs_tol : Q := 0.

Definition isclose (a b : Q) : bool :=
  (Qeq_bool a b
   || Qle_bool (Qabs (b - a)) (Qabs (rel_tol * b))
   || Qle_bool (Qabs (b - a)) (Qabs (rel_tol * a))
   || Qle_bool (Qabs (b - a)) abs_tol)%bool.

(** The values of a series that are not NaN, in order. *)
Definition usable (s : list (option Q)) : list Q := omap id s.

Definition neutral : Q := 0.5.

Section Normalizer.

(** [pd.to_numeric] on a string cell; [None] is the NaN of
    [errors="coerce"]. *)
Variable to_numeric_str : string → option Q.

Definition to_numeric (c : cell) : option Q :=
  match c with
  | CNaN => None
  | CNum q => Some q
  | CStr s => to_numeric_str s
  end.

Definition _normalize_series (series : list cell) (higher_is_better : bool)
  : list Q :=
  let s := map to_numeric series in
  match usable s with
  | [] => replicate (length s) neutral
  | x :: xs =>
      let min_val := fold_left Qmin xs x in
      let max_val := fold_left Qmax xs x in
      if isclose min_val max_val then replicate (length s) neutral
      else
        map (fun o =>
               match o with
               | Some v =>
                   let norm := (v - min_val) / (max_val - min_val) in
                   if higher_is_better then norm else 1 - norm
               | None => neutral
               end) s
  end.

End Normalizer.

(** ** Scorer: [rank_products] *)

(** [round(x)] of one argument: to the nearest integer, halves to even. *)
Definition py_round (x : Q) : Z :=
  let f := Qfloor x in
  match Qcompare (x - inject_Z f) (1 # 2) with
  | Lt => f
  | Gt => (f + 1)%Z
  | Eq => if Z.even f then f else (f + 1)%Z
  end.

Record Item : Type := {
  id : option cell;
  title : cell;
  score : Z;
  explanation : string
}.

Record Ranking : Type := {
  results : list Item;
  category : option string;
  weights : Weights
}.

(** [bool(c)] of a cell: NaN is a float that is not zero. *)
Definition cell_truthy (c : cell) : bool :=
  match c with
  | CNaN => true
  | CNum q => negb (Qeq_bool q 0)
  | CStr s => PyStr.nonempty s
  end.

(** [a or b] on the results of [row.get]. *)
Definition or_else (a : option cell) (b : cell) : cell :=
  match a with
  | Some c => if cell_truthy c then c else b
  | None => b
  end.

(** The shapes of [primary_goals] that make a goal list: the field is
    absent or null, a bare string, or a list. *)
Inductive goal_field : option pyval → Prop :=
| goal_field_absent : goal_field None
| goal_field_null : goal_field (Some PNone)
| goal_field_string (s : string) : goal_field (Some (PStr s))
| goal_field_list (l : list pyval) : goal_field (Some (PList l)).

(** [l[idx]] with an index array: every index must be in range. *)
Definition take_rows {A : Type} (l : list A) (idx : list nat) : result (list A) :=
  match mapM (fun i => l !! i) idx with
  | Some r => Ok r
  | None => Raise IndexError
  end.

(** The contract of [numpy.argsort]: the result lists every position of
    the array once, and the keys read in that order ascend. Which of two
    equal keys comes first is left open for the default kind. *)
Fixpoint ascending (l : list Q) : bool :=
  match l with
  | [] => true
  | x :: l' =>
      match l' with
      | [] => true
      | y :: _ => (Qle_bool x y && ascending l')%bool
      end
  end.

Definition is_argsort (keys : list Q) (idx : list nat) : bool :=
  (bool_decide (NoDup idx)
   && bool_decide (Forall (fun i => (i < length keys)%nat) idx)
   && (length idx =? length keys)%nat
   && ascending (omap (fun i => keys !! i) idx))%bool.

Definition placeholder (e : string) : string :=
  "(Could not generate explanation: " +:+ e +:+ ")".

(** The explanation text of an answer: the text, or the placeholder built
    from the exception. *)
Definition explanation_of (answer : string + string) : string :=
  match answer with
  | inl text => text
  | inr e => placeholder e
  end.

Section Scorer.

Variable py_repr : pyval → string.
Variable to_numeric_str : string → option Q.

(** [a.argsort(kind="quicksort")] of numpy, the kind [sort_values] uses
    when none is given. *)
Variable argsort : list Q → list nat.

(** The text-generation service: [chat_llm prompt] answers with a text
    ([inl]) or raises an exception with a message ([inr]), and moves the
    world on. *)
Variable World : Type.
Variable chat_llm : string → World → (string + string) * World.

(** The f-string of [_build_explanation]: goals text, category, the row
    with its continuous score, and [round(score * 100)]. *)
Variable render_prompt : string → string → Row → Q → Z → string.

(** [pd.Series([0.5] * len(df))] *)
Definition neutral_series (df : DataFrame) : list Q :=
  replicate (length (df_rows df)) neutral.

Definition column_score (df : DataFrame) (col : string) (higher_is_better : bool)
  : list Q :=
  if has_column df col
  then _normalize_series to_numeric_str (column df col) higher_is_better
  else neutral_series df.

Definition price_score (df : DataFrame) : list Q :=
  column_score df "price_usd" false.

Definition performance_score (df : DataFrame) (category : string) : list Q :=
  if portable category then
    let ram_score := column_score df "ram_gb" true in
    let storage_score := column_score df "storage_gb" true in
    zip_with Qplus (map (Qmult 0.7) ram_score) (map (Qmult 0.3) storage_score)
  else neutral_series df.

Definition battery_score (df : DataFrame) : list Q :=
  column_score df "battery_wh" true.

Definition screen_score (df : DataFrame) : list Q :=
  column_score df "screen_inches" true.

(** The column [score_continuous]. *)
Definition score_continuous (df : DataFrame) (category : string) (w : Weights)
  : list Q :=
  zip_with Qplus
    (zip_with Qplus
       (zip_with Qplus
          (map (Qmult (weight_of "price" w)) (price_score df))
          (map (Qmult (weight_of "performance" w)) (performance_score df category)))
       (map (Qmult (weight_of "battery" w)) (battery_score df)))
    (map (Qmult (weight_of "screen" w)) (screen_score df)).

(** The rows of [df] after the assignment of the score column. *)
Definition scored_rows (df : DataFrame) (category : string) (w : Weights)
  : list (Row * Q) :=
  zip (df_rows df) (score_continuous df category w).

(** pandas' [nargsort] for [ascending=False]: the keys and their positions
    are reversed, sorted ascending, and the index order is reversed
    again. *)
Definition nargsort (keys : list Q) : result (list nat) :=
  let non_nans := rev keys in
  let non_nan_idx := rev (seq 0 (length keys)) in
  indexer ← take_rows non_nan_idx (argsort non_nans);
  Ok (rev indexer).

(** [df.sort_values("score_continuous", ascending=False)] *)
Definition sort_values (rows : list (Row * Q)) : result (list (Row * Q)) :=
  indexer ← nargsort (map snd rows);
  take_rows rows indexer.

(** The category of the first row, or "laptop" without that column. *)
Definition first_category (df : DataFrame) : result string :=
  if has_column df "category" then
    match column df "category" with
    | CStr s :: _ => Ok (PyStr.lower (PyStr.strip s))
    | _ => Raise AttributeError
    end
  else Ok "laptop"%string.

(** [_compute_weights] and the score column as [rank_products] reaches
    them: the keys [sort_values] sorts by. *)
Definition continuous_scores (intent : Intent) (df : DataFrame)
  : result (list Q) :=
  category ← first_category df;
  weights ← _compute_weights py_repr intent category;
  Ok (score_continuous df category weights).

Definition _build_explanation (row : Row) (score : Q) (category : string)
    (goals : list string) (w : World) : (string + string) * World :=
  let goals_text :=
    match goals with
    | [] => "balanced everyday use"%string
    | _ => PyStr.join ", " goals
    end in
  chat_llm (render_prompt goals_text category row score (py_round (score * 100))) w.

(** The result entry of one row, given its explanation. *)
Definition make_item (df : DataFrame) (row : Row) (score_float : Q)
    (explanation : string) : Item :=
  {| id := row_get df row "id";
     title := or_else (row_get df row "title")
                (or_else (row_get df row "model") (CStr "Unknown product"));
     score := py_round (score_float * 100);
     explanation := explanation |}.

(** The loop over [df_sorted.iterrows()], with its [try]/[except]. *)
Fixpoint explain_rows (df : DataFrame) (rows : list (Row * Q))
    (category : string) (goals : list string) (w : World)
  : list Item * World :=
  match rows with
  | [] => ([], w)
  | (row, score_float) :: rest =>
      let '(answer, w1) := _build_explanation row score_float category goals w in
      let explanation := explanation_of answer in
      let '(items, w2) := explain_rows df rest category goals w1 in
      (make_item df row score_float explanation :: items, w2)
  end.

(** What the service answered, call by call, during that loop. *)
Fixpoint answers (rows : list (Row * Q)) (category : string)
    (goals : list string) (w : World) : list (string + string) :=
  match rows with
  | [] => []
  | (row, score_float) :: rest =>
      let '(answer, w1) := _build_explanation row score_float category goals w in
      answer :: answers rest category goals w1
  end.

Definition empty_ranking : Ranking :=
  {| results := []; category := None; weights := [] |}.

(** Everything [rank_products] computes before it asks for explanations:
    the category, the weights, the sorted scored rows, the goal list. *)
Definition prepare (intent : Intent) (df : DataFrame)
  : result (string * Weights * list (Row * Q) * list string) :=
  category ← first_category df;
  weights ← _compute_weights py_repr intent category;
  df_sorted ← sort_values (scored_rows df category weights);
  goals_list ← goal_strings py_repr intent;
  Ok (category, weights, df_sorted, goals_list).

Definition rank_products (intent : Intent) (products : option DataFrame)
    (w : World) : result Ranking * World :=
  match products with
  | None => (Ok empty_ranking, w)
  | Some df =>
      if df_empty df then (Ok empty_ranking, w)
      else
        match prepare intent df with
        | Raise e => (Raise e, w)
        | Ok (category, weights, df_sorted, goals_list) =>
            let '(items, w') := explain_rows df df_sorted category goals_list w in
            (Ok {| results := items;
                   category := Some category;
                   weights := weights |}, w')
        end
  end.

End Scorer.

(** ** Catalog filter: [detect_category], [_get_float], [filter_products] *)

Definition CATEGORY_KEYWORDS : list (string * list string) :=
  [("laptop", ["laptop"; "notebook"; "ultrabook"]);
   ("phone", ["phone"; "smartphone"; "mobile"]);
   ("tablet", ["tablet"; "ipad"; "tab"]);
   ("monitor", ["monitor"; "screen"; "display"])]%string.

(** The columns made numeric when the catalog is loaded. *)
Definition numeric_columns : list string :=
  ["price_usd"; "ram_gb"; "storage_gb"; "battery_wh"; "weight_kg";
   "screen_inches"]%string.

(** [df[mask]]: the rows where the mask holds, in order. *)
Definition select (mask : Row → bool) (df : DataFrame) : DataFrame :=
  {| df_columns := df_columns df;
     df_rows := List.filter mask (df_rows df) |}.

(** [df["category"] == category] *)
Definition is_category (category : string) (r : Row) : bool :=
  match cell_at r "category" with
  | CStr s => String.eqb s category
  | _ => false
  end.

(** [df[col] <= bound] on a numeric column: NaN compares false. *)
Definition at_most (col : string) (bound : Q) (r : Row) : bool :=
  match cell_at r col with
  | CNum q => Qle_bool q bound
  | _ => false
  end.

(** [df[col].fillna(0) >= bound] on a numeric column. *)
Definition at_least (col : string) (bound : Q) (r : Row) : bool :=
  match cell_at r col with
  | CNum q => Qle_bool bound q
  | _ => Qle_bool bound 0
  end.

Section CatalogFilter.

(** [float(s)] on a string; [None] when it raises. *)
Variable py_float : string → option Q.
Variable to_numeric_str : string → option Q.

(** [float] of [str(v)] without dollar signs and stripped; [None] when it raises. The
    text of a number reads back as that number; the text of [None], of a
    boolean, of a list or of a dict is no number. *)
Definition parse_float (v : pyval) : option Q :=
  match v with
  | PNum q => Some q
  | PStr s => py_float (PyStr.strip (PyStr.remove_char "$" s))
  | _ => None
  end.

Fixpoint _get_float (intent : Intent) (keys : list string) : option Q :=
  match keys with
  | [] => None
  | k :: keys' =>
      match intent !! k with
      | None | Some PNone => _get_float intent keys'
      | Some v =>
          match parse_float v with
          | Some q => Some q
          | None => _get_float intent keys'
          end
      end
  end.

(** Step 1 of [detect_category] for one key. *)
Definition category_from_key (intent : Intent) (key : string) : option string :=
  match intent !! key with
  | Some (PStr val) =>
      if PyStr.nonempty (PyStr.strip val) then
        let normalized := PyStr.lower (PyStr.strip val) in
        if bool_decide (normalized ∈ map fst CATEGORY_KEYWORDS)
        then Some normalized else None
      else None
  | _ => None
  end.

(** Step 2: the first category one of whose keywords occurs in the query. *)
Definition category_from_query (q : string) : option string :=
  fst <$> List.find (fun ck => existsb (fun kw => PyStr.contains kw q) (snd ck))
            CATEGORY_KEYWORDS.

Definition detect_category (intent : Intent) (user_query : option string)
  : string :=
  match omap (category_from_key intent)
          ["category"; "device_type"; "product_type"]%string with
  | normalized :: _ => normalized
  | [] =>
      let q := PyStr.lower (default EmptyString user_query) in
      default "laptop"%string (category_from_query q)
  end.

(** The module-level load: every numeric column that is present goes
    through [pd.to_numeric(..., errors="coerce")]. *)
Definition coerce_cell (c : cell) : cell :=
  match to_numeric to_numeric_str c with
  | Some q => CNum q
  | None => CNaN
  end.

Definition coerce_row (cols : list string) (r : Row) : Row :=
  foldr (fun col r' => <[col := coerce_cell (cell_at r col)]> r') r cols.

Definition _catalog_df (raw : DataFrame) : DataFrame :=
  {| df_columns := df_columns raw;
     df_rows :=
       map (coerce_row (List.filter (has_column raw) numeric_columns))
         (df_rows raw) |}.

(** One block of [filter_products]: a bound read from the intent under
    one of its alias keys, applied when the column exists. *)
Definition apply_bound (intent : Intent) (keys : list string) (col : string)
    (mask : string → Q → Row → bool) (df : DataFrame) : DataFrame :=
  match _get_float intent keys with
  | Some bound => if has_column df col then select (mask col bound) df else df
  | None => df
  end.

Definition budget_keys : list string :=
  ["budget_max"; "max_price"; "budget"; "price_cap"]%string.
Definition ram_keys : list string :=
  ["min_ram_gb"; "ram_min"; "ram_gb_min"; "min_ram"]%string.
Definition storage_keys : list string :=
  ["min_storage_gb"; "storage_min"; "min_storage"]%string.
Definition battery_keys : list string :=
  ["min_battery_wh"; "battery_min"; "battery_wh_min"]%string.

(** The four numeric blocks in the order of the source. *)
Definition numeric_filters (intent : Intent) (df : DataFrame) : DataFrame :=
  apply_bound intent battery_keys "battery_wh" at_least
    (apply_bound intent storage_keys "storage_gb" at_least
       (apply_bound intent ram_keys "ram_gb" at_least
          (apply_bound intent budget_keys "price_usd" at_most df))).

(** [filter_products] over the catalog as read from the CSV file; an
    absent category column makes [df["category"]] raise. *)
Definition filter_products (raw : DataFrame) (intent : Intent)
    (user_query : option string) : result DataFrame :=
  let catalog := _catalog_df raw in
  if has_column catalog "category" then
    let category := detect_category intent user_query in
    let df := numeric_filters intent (select (is_category category) catalog) in
    if df_empty df then Ok (select (is_category category) catalog)
    else Ok df
  else Raise KeyError.

End CatalogFilter.

(** ** The client, the intent agent and the pipeline
    ([core/llm_client.py], [agents/intent_agent.py],
    [core/orchestrator.py]) *)

(** What ends a run of the pipeline early: an exception of the filter or
    of the scorer, the [ValueError] of [chat_llm], or an exception of the
    chat completion, with its message. *)
Inductive failure : Type :=
| Raised (e : exn)
| ValueError
| ServiceError (msg : string).

(** [str(e)] of a failure of the client. *)
Definition failure_message (f : failure) : string :=
  match f with
  | ServiceError msg => msg
  | ValueError => "chat_llm requires at least one prompt string."
  | Raised _ => EmptyString
  end.

(** The separator of the prompt parts: two line feeds. *)
Definition blank_line : string :=
  String (ascii_of_nat 10) (String (ascii_of_nat 10) EmptyString).

(** What [extract_intent] returns when the answer is no JSON. *)
Definition fallback_intent (user_query : string) : pyval :=
  PDict [("category", PStr "laptop"); ("budget_usd", PNone);
         ("primary_goals", PList []); ("hard_constraints", PDict []);
         ("notes", PStr user_query)]%string.

(** The intent as the agents use it, through [intent.get] and
    [k in intent]: a dict, in which the last of two equal keys counts;
    any other value has no [get]. *)
Definition as_intent (v : pyval) : result Intent :=
  match v with
  | PDict d => Ok (list_to_map (rev d))
  | _ => Raise AttributeError
  end.

Module LlmClient.

Section Client.

Variable World : Type.

(** [client.chat.completions.create(...)] on the combined prompt, and the
    content of its first choice; [inr] is the message of an exception. *)
Variable completion : string → World → (string + string) * World.

Definition chat_llm (prompt_parts : list string) (w : World)
  : (string + failure) * World :=
  match prompt_parts with
  | [] => (inr ValueError, w)
  | _ =>
      let combined_prompt :=
        PyStr.join blank_line (List.filter PyStr.nonempty prompt_parts) in
      match completion combined_prompt w with
      | (inl content, w') => (inl content, w')
      | (inr msg, w') => (inr (ServiceError msg), w')
      end
  end.

(** [chat_llm(prompt)] as [_build_explanation] calls it, with the message
    of the exception for the [except] clause of [rank_products]. *)
Definition chat_llm_one (prompt : string) (w : World)
  : (string + string) * World :=
  match chat_llm [prompt] w with
  | (inl content, w') => (inl content, w')
  | (inr f, w') => (inr (failure_message f), w')
  end.

End Client.

End LlmClient.

Module Orchestrator.

Section Pipeline.

Variable py_repr : pyval → string.
Variable py_float : string → option Q.
Variable to_numeric_str : string → option Q.
Variable argsort : list Q → list nat.
Variable World : Type.
Variable completion : string → World → (string + string) * World.
Variable render_prompt : string → string → Row → Q → Z → string.

(** [json.loads]; [None] is its [JSONDecodeError]. *)
Variable json_loads : string → option pyval.

(** The text of the system prompt of the intent agent. *)
Variable INTENT_SYSTEM_PROMPT : string.

(** The catalog as read from the CSV file. *)
Variable raw_catalog : DataFrame.

Definition extract_intent (user_query : string) (w : World)
  : (pyval + failure) * World :=
  match LlmClient.chat_llm World completion
          [INTENT_SYSTEM_PROMPT; user_query] w with
  | (inr f, w') => (inr f, w')
  | (inl raw, w') =>
      match json_loads raw with
      | Some intent => (inl intent, w')
      | None => (inl (fallback_intent user_query), w')
      end
  end.

Definition run_pipeline (user_query : string) (w : World)
  : ((pyval * DataFrame * Ranking) + failure) * World :=
  match extract_intent user_query w with
  | (inr f, w1) => (inr f, w1)
  | (inl intent, w1) =>
      match
        (d ← as_intent intent;
         products ← filter_products py_float to_numeric_str raw_catalog d
                      (Some user_query);
         Ok (d, products))
      with
      | Raise e => (inr (Raised e), w1)
      | Ok (d, products) =>
          match
            rank_products py_repr to_numeric_str argsort World
              (LlmClient.chat_llm_one World completion) render_prompt
              d (Some products) w1
          with
          | (Raise e, w2) => (inr (Raised e), w2)
          | (Ok ranking, w2) => (inl (intent, products, ranking), w2)
          end
      end
  end.

End Pipeline.

End Orchestrator.

(** ** Vocabulary of the statements *)

(** The weight dictionary always has the four criteria in this order. *)
Definition four (p f b s : Q) : Weights :=
  [("price", p); ("performance", f); ("battery", b); ("screen", s)]%string.

(** What the loop does to one weight. *)
Definition bump_each (hits : string → bool) (goals : list string) (x : Q) : Q :=
  fold_left (fun x g => if hits g then x + delta else x) goals x.

(** The number of goals that match a keyword group. *)
Definition count_hits (hits : string → bool) (goals : list string) : nat :=
  length (List.filter hits goals).

Definition times (n : nat) : Q := inject_Z (Z.of_nat n).

(** One entry of a normalized column, for the range [lo .. hi] of the
    usable values. *)
Definition normalized_entry (lo hi : Q) (higher_is_better : bool)
    (o : option Q) : Q :=
  match o with
  | Some v =>
      if higher_is_better then (v - lo) / (hi - lo)
      else 1 - (v - lo) / (hi - lo)
  | None => 0.5
  end.


(** A row meets one numeric constraint of the intent: the bound is
    absent, or the column is, or the comparison holds. *)
Definition bound_holds (py_float : string → option Q) (intent : Intent)
    (df : DataFrame) (keys : list string) (col : string)
    (mask : string → Q → Row → bool) (r : Row) : bool :=
  match _get_float py_float intent keys with
  | Some bound => if has_column df col then mask col bound r else true
  | None => true
  end.

(** A row meets the budget and the minimum RAM, storage and battery. *)
Definition meets_bounds (py_float : string → option Q) (intent : Intent)
    (df : DataFrame) (r : Row) : bool :=
  (bound_holds py_float intent df budget_keys "price_usd" at_most r
   && bound_holds py_float intent df ram_keys "ram_gb" at_least r
   && bound_holds py_float intent df storage_keys "storage_gb" at_least r
   && bound_holds py_float intent df battery_keys "battery_wh" at_least r)%bool.

Definition unit_interval (y : Q) : Prop := 0 <= y ∧ y <= 1.

(** The order of a list that descends: each element is no less than the
    ones behind it. *)
Definition no_less (x y : Q) : Prop := y <= x.

(** The ids of a ranking in result order; none if the call raised. *)
Definition ranked_ids (r : result Ranking) : list (option cell) :=
  match r with
  | Ok ranking => map id (results ranking)
  | Raise _ => []
  end.

(** The number the intent holds under one key: the key is present and
    its value reads as a number (null does not). *)
Definition value_float (py_float : string → option Q) (intent : Intent)
    (k : string) : option Q :=
  intent !! k ≫= parse_float py_float.

(** The keys of the intent [filter_products] looks at. *)
Definition read_keys : list string :=
  (["category"; "device_type"; "product_type"]%string ++ budget_keys
   ++ ram_keys ++ storage_keys ++ battery_keys)%list.

(** The four categories of the keyword table. *)
Definition known_categories : list string :=
  ["laptop"; "phone"; "tablet"; "monitor"]%string.

(** The keyword test of a criterion. *)
Definition hits (criterion g : string) : bool :=
  if String.eqb criterion "price" then hits_price g
  else if String.eqb criterion "performance" then hits_performance g
  else if String.eqb criterion "battery" then hits_battery g
  else if String.eqb criterion "screen" then hits_screen g
  else false.

Definition criteria : list string :=
  ["price"; "performance"; "battery"; "screen"]%string.

(** ** Concrete library calls and data for the examples *)

Module Concrete.

(** Unsigned decimal literals, a fragment of what [float] reads. *)
Definition digit_of (c : ascii) : option Z :=
  let n := nat_of_ascii c in
  if ((48 <=? n)%nat && (n <=? 57)%nat)%bool
  then Some (Z.of_nat (n - 48)) else None.

Fixpoint read_digits (s : string) (acc : Z) (n : nat) : Z * nat * string :=
  match s with
  | EmptyString => (acc, n, s)
  | String c s' =>
      match digit_of c with
      | Some d => read_digits s' (10 * acc + d)%Z (S n)
      | None => (acc, n, s)
      end
  end.

Definition decimal_float (s : string) : option Q :=
  let '(i, ni, rest) := read_digits s 0%Z 0%nat in
  match rest with
  | EmptyString => if (ni =? 0)%nat then None else Some (inject_Z i)
  | String "."%char rest' =>
      let '(f, nf, rest'') := read_digits rest' 0%Z 0%nat in
      match rest'' with
      | EmptyString =>
          if (ni + nf =? 0)%nat then None
          else Some (Qred (inject_Z i + (f # Z.to_pos (10 ^ Z.of_nat nf))))
      | _ => None
      end
  | _ => None
  end.

(** [str] of the values that are no strings, as far as the examples go. *)
Definition simple_repr (v : pyval) : string :=
  match v with
  | PNone => "None"
  | PBool true => "True"
  | PBool false => "False"
  | _ => EmptyString
  end.

(** A stable argsort by insertion: a position goes behind the positions
    already placed whose key is not larger. *)
Definition key_at (keys : list Q) (i : nat) : Q := default 0 (keys !! i).

Fixpoint insert_position (keys : list Q) (i : nat) (placed : list nat)
  : list nat :=
  match placed with
  | [] => [i]
  | j :: rest =>
      if Qle_bool (key_at keys j) (key_at keys i)
      then j :: insert_position keys i rest
      else i :: placed
  end.

Definition insertion_argsort (keys : list Q) : list nat :=
  fold_left (fun placed i => insert_position keys i placed)
    (seq 0 (length keys)) [].

(** The index order an in-place partition around the middle element
    leaves on 18 keys that are all equal (numpy partitions arrays of more
    than 17 elements): positions 1 to 15 end up mirrored. *)
Definition partitioned_argsort (keys : list Q) : list nat :=
  [0; 15; 14; 13; 12; 11; 10; 9; 8; 7; 6; 5; 4; 3; 2; 1; 16; 17]%nat.

(** A scripted text-generation service: the world is the list of the
    answers still to come. *)
Definition scripted_llm (prompt : string) (w : list (string + string))
  : (string + string) * list (string + string) :=
  match w with
  | [] => (inl "ok"%string, [])
  | answer :: w' => (answer, w')
  end.

Definition short_prompt (goals_text category : string) (row : Row)
    (score_continuous : Q) (score : Z) : string :=
  goals_text +:+ " | " +:+ category.

(** The catalog of the filtering example: a laptop at $850 with 16 GB and
    a laptop at $950 with 32 GB. *)
Definition laptop_850 : Row :=
  {[ "id" := CStr "L-850"; "title" := CStr "Laptop A";
     "category" := CStr "laptop"; "price_usd" := CNum 850;
     "ram_gb" := CNum 16 ]}.

Definition laptop_950 : Row :=
  {[ "id" := CStr "L-950"; "title" := CStr "Laptop B";
     "category" := CStr "laptop"; "price_usd" := CNum 950;
     "ram_gb" := CNum 32 ]}.

Definition two_laptops : DataFrame :=
  {| df_columns := ["id"; "title"; "category"; "price_usd"; "ram_gb"]%string;
     df_rows := [laptop_850; laptop_950] |}.

(** The intent of the example, with the field names the intent agent
    asks the model for. *)
Definition intent_budget_usd : Intent :=
  {[ "category" := PStr "laptop"; "budget_usd" := PNum 900;
     "primary_goals" := PList [];
     "hard_constraints" := PDict [("min_ram_gb"%string, PNum 16)] ]}.

(** The same request under keys [filter_products] reads. *)
Definition intent_alias_keys : Intent :=
  {[ "category" := PStr "laptop"; "budget" := PNum 900;
     "min_ram_gb" := PNum 16 ]}.

(** A request no laptop of the catalog meets. *)
Definition intent_too_cheap : Intent :=
  {[ "category" := PStr "laptop"; "budget" := PStr "$100" ]}.

Definition intent_battery : Intent :=
  {[ "primary_goals" := PList [PStr "Battery_Life"; PStr "cheap gaming"] ]}.

Definition laptop_700 : Row :=
  {[ "id" := CStr "L-700"; "title" := CStr "Laptop C";
     "category" := CStr "laptop"; "price_usd" := CNum 700;
     "ram_gb" := CNum 8 ]}.

Definition three_laptops : DataFrame :=
  {| df_columns := ["id"; "title"; "category"; "price_usd"; "ram_gb"]%string;
     df_rows := [laptop_850; laptop_950; laptop_700] |}.

Definition no_laptops : DataFrame :=
  {| df_columns := ["id"; "title"; "category"; "price_usd"; "ram_gb"]%string;
     df_rows := [] |}.

(** Eighteen laptops that differ in their id only. *)
Definition tied_row (n : nat) : Row :=
  {[ "id" := CNum (inject_Z (Z.of_nat n)); "category" := CStr "laptop";
     "price_usd" := CNum 500 ]}.

Definition tied_laptops : DataFrame :=
  {| df_columns := ["id"; "category"; "price_usd"]%string;
     df_rows := map tied_row (seq 0 18) |}.


(** The score column of the three laptops under [intent_battery], and
    what [rank_products] prepares for them with the insertion argsort. *)
Definition three_keys : list Q :=
  Eval vm_compute in
    match continuous_scores simple_repr decimal_float intent_battery
            three_laptops with
    | Ok keys => keys
    | Raise _ => []
    end.

Definition three_weights : Weights :=
  Eval vm_compute in
    match _compute_weights simple_repr intent_battery "laptop" with
    | Ok w => w
    | Raise _ => []
    end.

Definition three_sorted : list (Row * Q) :=
  Eval vm_compute in
    match sort_values insertion_argsort
            (scored_rows decimal_float three_laptops "laptop" three_weights) with
    | Ok rows => rows
    | Raise _ => []
    end.

Definition three_answers : list (string + string) :=
  [inl "first"; inr "down"; inl "third"]%string.

End Concrete.

Import Concrete.

(** ** More data, for the further properties *)

Module Examples.

(** A stand-in for [json.loads] that knows two texts. *)
Definition scripted_json (raw : string) : option pyval :=
  if String.eqb raw "laptop under 900" then
    Some (PDict [("category", PStr " Laptop "); ("budget", PNum 900)]%string)
  else if String.eqb raw "a list" then Some (PList [])
  else None.

Definition system_prompt : string := "You are the Intent Agent.".

Definition intent_spaced : Intent :=
  {[ "category" := PStr " Laptop "; "budget" := PNum 900 ]}.

Definition intent_battery_swapped : Intent :=
  {[ "primary_goals" := PList [PStr "cheap gaming"; PStr "Battery_Life"] ]}.

Definition mixed_column : list cell :=
  [CNum 1; CStr "3"; CNaN; CStr "abc"; CNum 2].

Definition one_laptop : DataFrame :=
  {| df_columns := ["id"; "title"; "category"; "price_usd"; "ram_gb"]%string;
     df_rows := [laptop_850] |}.

Definition one_keys : list Q :=
  Eval vm_compute in
    match continuous_scores simple_repr decimal_float intent_battery
            one_laptop with
    | Ok keys => keys
    | Raise _ => []
    end.

Definition three_ranking : Ranking :=
  Eval vm_compute in
    match fst (rank_products simple_repr decimal_float insertion_argsort
                 (list (string + string)) scripted_llm short_prompt
                 intent_battery (Some three_laptops) three_answers) with
    | Ok ranking => ranking
    | Raise _ => empty_ranking
    end.

(** One run of the pipeline: the model answers the intent prompt with a
    text the stand-in parser reads, then the two explanation prompts. *)
Definition run_answers : list (string + string) :=
  [inl "laptop under 900"; inl "first"; inr "down"]%string.

Definition run_intent : pyval :=
  PDict [("category", PStr " Laptop "); ("budget", PNum 900)]%string.

Definition run_products : DataFrame :=
  {| df_columns := df_columns three_laptops;
     df_rows := [laptop_850; laptop_700] |}.

Definition run_ranking : Ranking :=
  Eval vm_compute in
    match fst (Orchestrator.run_pipeline simple_repr decimal_float
                 decimal_float insertion_argsort (list (string + string))
                 scripted_llm short_prompt scripted_json system_prompt
                 three_laptops "cheap Laptop" run_answers) with
    | inl (_, _, ranking) => ranking
    | inr _ => empty_ranking
    end.

End Examples.

Import Examples.

(** * Properties *)

(** ** Weight resolver *)

Lemma base_weights_four (c : string) :
  ∃ p f b s, base_weights c = four p f b s
    ∧ 0 <= p ∧ 0 <= f ∧ 0 <= b ∧ 0 <= s ∧ p + f + b + s == 1.
Proof.
  unfold base_weights.
  destruct (portable c); do 4 eexists; (split; [reflexivity|]);
    repeat split; try (vm_compute; congruence); reflexivity.
Qed.

Lemma bump_goal_four (p f b s : Q) (g : string) :
  bump_goal (four p f b s) g
  = four (if hits_price g then p + delta else p)
         (if hits_performance g then f + delta else f)
         (if hits_battery g then b + delta else b)
         (if hits_screen g then s + delta else s).
Proof.
  unfold bump_goal.
  destruct (hits_performance g), (hits_battery g), (hits_price g),
    (hits_screen g); reflexivity.
Qed.

Lemma fold_bump_goal_four (goals : list string) : ∀ p f b s,
  fold_left bump_goal goals (four p f b s)
  = four (bump_each hits_price goals p) (bump_each hits_performance goals f)
         (bump_each hits_battery goals b) (bump_each hits_screen goals s).
Proof.
  induction goals as [|g goals IH]; intros p f b s; [reflexivity|].
  cbn [fold_left]. rewrite bump_goal_four, IH. reflexivity.
Qed.

Lemma times_S (n : nat) : times (S n) == times n + 1.
Proof.
  unfold times. rewrite Nat2Z.inj_succ, <- Z.add_1_r, inject_Z_plus.
  reflexivity.
Qed.

Lemma bump_each_count (hits : string → bool) (goals : list string) : ∀ x,
  bump_each hits goals x == x + delta * times (count_hits hits goals).
Proof.
  unfold bump_each, count_hits.
  induction goals as [|g goals IH]; intros x; cbn [fold_left List.filter].
  - unfold times; simpl. ring.
  - rewrite IH. destruct (hits g); cbn [length].
    + rewrite times_S. ring.
    + reflexivity.
Qed.

Lemma bump_each_ge (hits : string → bool) (goals : list string) (x : Q) :
  x <= bump_each hits goals x.
Proof.
  rewrite bump_each_count.
  assert (0 <= times (count_hits hits goals)).
  { unfold times. change 0 with (inject_Z 0). rewrite <- Zle_Qle. lia. }
  assert (0 < delta) by reflexivity.
  nra.
Qed.


Lemma sum_values_four (p f b s : Q) :
  sum_values (four p f b s) == p + f + b + s.
Proof. unfold sum_values, four; simpl. ring. Qed.

Lemma normalize_weights_four (p f b s : Q) :
  normalize_weights (four p f b s)
  = if Qle_bool (sum_values (four p f b s)) 0
    then four (1 / 4) (1 / 4) (1 / 4) (1 / 4)
    else
      let total := sum_values (four p f b s) in
      four (p / total) (f / total) (b / total) (s / total).
Proof.
  unfold normalize_weights.
  destruct (Qle_bool (sum_values (four p f b s)) 0); reflexivity.
Qed.

Lemma normalized_four (p f b s : Q) :
  0 <= p → 0 <= f → 0 <= b → 0 <= s → 0 < p + f + b + s →
  ∃ p' f' b' s', normalize_weights (four p f b s) = four p' f' b' s'
    ∧ 0 <= p' ∧ 0 <= f' ∧ 0 <= b' ∧ 0 <= s' ∧ p' + f' + b' + s' == 1.
Proof.
  intros Hp Hf Hb Hs Ht.
  rewrite normalize_weights_four.
  pose proof (sum_values_four p f b s) as Hsum.
  destruct (Qle_bool (sum_values (four p f b s)) 0) eqn:E.
  { apply Qle_bool_iff in E. rewrite Hsum in E. lra. }
  cbv zeta. set (t := sum_values (four p f b s)) in *.
  assert (Ht' : 0 < t) by (rewrite Hsum; exact Ht).
  do 4 eexists. split; [reflexivity|].
  assert (Hdiv : ∀ x, 0 <= x → 0 <= x / t).
  { intros x Hx. apply Qle_shift_div_l; [exact Ht'|lra]. }
  repeat split; try (apply Hdiv; assumption).
  assert (Hne : ¬ t == 0) by lra.
  transitivity ((p + f + b + s) / t); [field; exact Hne|].
  rewrite <- Hsum. field. exact Hne.
Qed.

Lemma bumped_weights_four (category : string) (goals : list string) :
  ∃ p f b s, base_weights category = four p f b s
    ∧ bumped_weights category goals
      = four (bump_each hits_price goals p) (bump_each hits_performance goals f)
             (bump_each hits_battery goals b) (bump_each hits_screen goals s)
    ∧ 0 <= p ∧ 0 <= f ∧ 0 <= b ∧ 0 <= s ∧ p + f + b + s == 1.
Proof.
  destruct (base_weights_four category) as (p & f & b & s & Hbase & H).
  exists p, f, b, s. split; [exact Hbase|]. split; [|exact H].
  unfold bumped_weights. rewrite Hbase. apply fold_bump_goal_four.
Qed.

Lemma goal_strings_ok (py_repr : pyval → string) (intent : Intent) :
  goal_field (intent !! "primary_goals") →
  ∃ goals, goal_strings py_repr intent = Ok goals.
Proof.
  unfold goal_strings, goals_raw. intros H.
  inversion H as [E|E|s E|l E]; clear H.
  - eexists; reflexivity.
  - eexists; reflexivity.
  - cbn [truthy]. destruct (PyStr.nonempty s); eexists; reflexivity.
  - cbn [truthy]. destruct l; eexists; reflexivity.
Qed.

(** C3: for every intent whose goal field is absent, null, a bare string
    or a list, and every category, [_compute_weights] returns a weight set
    with exactly the four criteria price, performance, battery, screen,
    every weight non-negative, and the weights summing to 1; and on a
    four-criteria dictionary whose total is zero or negative the
    normalization step returns the equal split, 0.25 per criterion. *)
Theorem compute_weights_weight_set (py_repr : pyval → string)
    (intent : Intent) (category : string) :
  goal_field (intent !! "primary_goals") →
  (∃ w, _compute_weights py_repr intent category = Ok w
        ∧ map fst w = ["price"; "performance"; "battery"; "screen"]%string
        ∧ Forall (fun kv => 0 <= snd kv) w
        ∧ sum_values w == 1)
  ∧ (∀ p f b s, sum_values (four p f b s) <= 0 →
       map fst (normalize_weights (four p f b s))
       = ["price"; "performance"; "battery"; "screen"]%string
       ∧ Forall (fun kv => snd kv == 0.25) (normalize_weights (four p f b s))).
Proof.
  intros Hfield. split.
  - destruct (goal_strings_ok py_repr intent Hfield) as [goals Hgoals].
    unfold _compute_weights. rewrite Hgoals. cbn [mbind result_bind].
    destruct (bumped_weights_four category (map PyStr.lower goals))
      as (p & f & b & s & _ & -> & Hp & Hf & Hb & Hs & Hsum).
    pose proof (bump_each_ge hits_price (map PyStr.lower goals) p).
    pose proof (bump_each_ge hits_performance (map PyStr.lower goals) f).
    pose proof (bump_each_ge hits_battery (map PyStr.lower goals) b).
    pose proof (bump_each_ge hits_screen (map PyStr.lower goals) s).
    destruct (normalized_four
                (bump_each hits_price (map PyStr.lower goals) p)
                (bump_each hits_performance (map PyStr.lower goals) f)
                (bump_each hits_battery (map PyStr.lower goals) b)
                (bump_each hits_screen (map PyStr.lower goals) s))
      as (p' & f' & b' & s' & -> & Hp' & Hf' & Hb' & Hs' & Hsum');
      try lra.
    eexists. split; [reflexivity|]. split; [reflexivity|]. split.
    + repeat constructor; assumption.
    + rewrite sum_values_four. exact Hsum'.
  - intros p f b s Htotal. rewrite normalize_weights_four.
    apply Qle_bool_iff in Htotal. rewrite Htotal.
    split; [reflexivity|]. repeat constructor; reflexivity.
Qed.


(** C10: in whatever state the loop has reached, one goal raises each
    criterion by 0.15 if the goal contains a keyword of the criterion's
    group, however many of them, and by nothing otherwise. The one goal
    "battery all day" holds two synonyms of the battery group and raises
    battery by 0.15 once; the one goal "cheap gaming" raises price and
    performance by 0.15 each. *)
Theorem one_bump_per_goal (category : string) (before : list string)
    (g : string) :
  (let w0 := bumped_weights category before in
   let w1 := bumped_weights category (before ++ [g]) in
   w1 = bump_goal w0 g
   ∧ weight_of "price" w1
     == weight_of "price" w0 + (if hits_price g then 0.15 else 0)
   ∧ weight_of "performance" w1
     == weight_of "performance" w0 + (if hits_performance g then 0.15 else 0)
   ∧ weight_of "battery" w1
     == weight_of "battery" w0 + (if hits_battery g then 0.15 else 0)
   ∧ weight_of "screen" w1
     == weight_of "screen" w0 + (if hits_screen g then 0.15 else 0))
  ∧ (PyStr.contains "battery" "battery all day" = true
     ∧ PyStr.contains "all day" "battery all day" = true
     ∧ bumped_weights "laptop" ["battery all day"%string]
       = four 0.30 0.40 (0.30 + 0.15) 0.00)
  ∧ bumped_weights "laptop" ["cheap gaming"%string]
    = four (0.30 + 0.15) (0.40 + 0.15) 0.30 0.00.
Proof.
  split; [|split; [repeat split|reflexivity]].
  cbv zeta.
  assert (Hstep : bumped_weights category (before ++ [g])
                  = bump_goal (bumped_weights category before) g).
  { unfold bumped_weights. rewrite fold_left_app. reflexivity. }
  rewrite Hstep. split; [reflexivity|].
  destruct (bumped_weights_four category before)
    as (p & f & b & s & _ & -> & _).
  rewrite bump_goal_four.
  cbn [weight_of four String.eqb Ascii.eqb Bool.eqb].
  destruct (hits_price g), (hits_performance g), (hits_battery g),
    (hits_screen g); repeat split; unfold delta; ring.
Qed.

(** ** Feature normalizer *)

Lemma Qmin_cases (x y : Q) : Qmin x y = x ∨ Qmin x y = y.
Proof. unfold Qmin, GenericMinMax.gmin. destruct (x ?= y); auto. Qed.

Lemma Qmax_cases (x y : Q) : Qmax x y = x ∨ Qmax x y = y.
Proof. unfold Qmax, GenericMinMax.gmax. destruct (x ?= y); auto. Qed.

Lemma fold_Qmin_spec (xs : list Q) : ∀ x,
  fold_left Qmin xs x ∈ x :: xs
  ∧ Forall (fun v => fold_left Qmin xs x <= v) (x :: xs).
Proof.
  induction xs as [|y xs IH]; intros x; cbn [fold_left].
  - split; [left|]. repeat constructor. apply Qle_refl.
  - destruct (IH (Qmin x y)) as [Hin Hall].
    inversion Hall as [|? ? Hm Hrest]; subst.
    split.
    + apply elem_of_cons in Hin as [->|Hin].
      * destruct (Qmin_cases x y) as [->| ->]; [left|right; left].
      * right; right; exact Hin.
    + constructor; [|constructor; [|exact Hrest]].
      * eapply Qle_trans; [exact Hm|apply Q.le_min_l].
      * eapply Qle_trans; [exact Hm|apply Q.le_min_r].
Qed.

Lemma fold_Qmax_spec (xs : list Q) : ∀ x,
  fold_left Qmax xs x ∈ x :: xs
  ∧ Forall (fun v => v <= fold_left Qmax xs x) (x :: xs).
Proof.
  induction xs as [|y xs IH]; intros x; cbn [fold_left].
  - split; [left|]. repeat constructor. apply Qle_refl.
  - destruct (IH (Qmax x y)) as [Hin Hall].
    inversion Hall as [|? ? Hm Hrest]; subst.
    split.
    + apply elem_of_cons in Hin as [->|Hin].
      * destruct (Qmax_cases x y) as [->| ->]; [left|right; left].
      * right; right; exact Hin.
    + constructor; [|constructor; [|exact Hrest]].
      * eapply Qle_trans; [apply Q.le_max_l|exact Hm].
      * eapply Qle_trans; [apply Q.le_max_r|exact Hm].
Qed.

Lemma isclose_equal (a b : Q) : a == b → isclose a b = true.
Proof.
  intros H. unfold isclose.
  apply Qeq_bool_iff in H. rewrite H. reflexivity.
Qed.

Lemma isclose_false_neq (a b : Q) : isclose a b = false → ¬ a == b.
Proof.
  intros H E. rewrite (isclose_equal a b E) in H. discriminate.
Qed.

Lemma unit_interval_scaled (lo hi v : Q) :
  lo < hi → lo <= v → v <= hi →
  0 <= (v - lo) / (hi - lo) ∧ (v - lo) / (hi - lo) <= 1.
Proof.
  intros Hlt Hlo Hhi. split.
  - apply Qle_shift_div_l; lra.
  - apply Qle_shift_div_r; lra.
Qed.

Lemma normalized_entry_range (lo hi : Q) (hib : bool) (o : option Q) :
  lo < hi → (∀ v, o = Some v → lo <= v ∧ v <= hi) →
  0 <= normalized_entry lo hi hib o ∧ normalized_entry lo hi hib o <= 1.
Proof.
  intros Hlt Hv. destruct o as [v|]; cbn [normalized_entry].
  - destruct (Hv v eq_refl) as [H1 H2].
    destruct (unit_interval_scaled lo hi v Hlt H1 H2) as [H3 H4].
    destruct hib; lra.
  - split; [discriminate|discriminate].
Qed.

Lemma usable_elem (s : list (option Q)) (v : Q) :
  Some v ∈ s → v ∈ usable s.
Proof.
  intros H. unfold usable. apply list_elem_of_omap. exists (Some v).
  split; [exact H|reflexivity].
Qed.

Lemma replicate_range (n : nat) :
  Forall (fun y => 0 <= y ∧ y <= 1) (replicate n neutral).
Proof.
  apply Forall_replicate. split; discriminate.
Qed.

(** The three cases of [_normalize_series], with the range of the usable
    values made explicit. *)
Lemma normalize_series_cases (to_numeric_str : string → option Q)
    (series : list cell) (hib : bool) :
  let s := map (to_numeric to_numeric_str) series in
  let out := _normalize_series to_numeric_str series hib in
  match usable s with
  | [] => out = replicate (length series) neutral
  | x :: xs =>
      ∃ lo hi, lo ∈ x :: xs ∧ hi ∈ x :: xs
        ∧ Forall (fun v => lo <= v ∧ v <= hi) (x :: xs)
        ∧ if isclose lo hi then out = replicate (length series) neutral
          else lo < hi ∧ out = map (normalized_entry lo hi hib) s
  end.
Proof.
  cbv zeta. unfold _normalize_series.
  destruct (usable (map (to_numeric to_numeric_str) series)) as [|x xs] eqn:E.
  - rewrite length_map. reflexivity.
  - destruct (fold_Qmin_spec xs x) as [Hlo_in Hlo].
    destruct (fold_Qmax_spec xs x) as [Hhi_in Hhi].
    exists (fold_left Qmin xs x), (fold_left Qmax xs x).
    split; [exact Hlo_in|]. split; [exact Hhi_in|]. split.
    { apply Forall_forall. intros v Hv.
      rewrite Forall_forall in Hlo, Hhi. split; [apply Hlo|apply Hhi];
        exact Hv. }
    destruct (isclose (fold_left Qmin xs x) (fold_left Qmax xs x)) eqn:Hc.
    + rewrite length_map. reflexivity.
    + split; [|reflexivity].
      apply isclose_false_neq in Hc.
      rewrite Forall_forall in Hhi.
      pose proof (Hhi _ Hlo_in) as Hle.
      apply Qle_lteq in Hle as [Hlt|Heq]; [exact Hlt|contradiction].
Qed.

Lemma normalize_series_range (to_numeric_str : string → option Q)
    (series : list cell) (hib : bool) :
  length (_normalize_series to_numeric_str series hib) = length series
  ∧ Forall (fun y => 0 <= y ∧ y <= 1)
      (_normalize_series to_numeric_str series hib).
Proof.
  pose proof (normalize_series_cases to_numeric_str series hib) as H.
  cbv zeta in H.
  destruct (usable (map (to_numeric to_numeric_str) series)) as [|x xs] eqn:E.
  - rewrite H, length_replicate. split; [reflexivity|apply replicate_range].
  - destruct H as (lo & hi & _ & _ & Hall & H).
    destruct (isclose lo hi).
    + rewrite H, length_replicate. split; [reflexivity|apply replicate_range].
    + destruct H as [Hlt ->]. rewrite !length_map. split; [reflexivity|].
      apply Forall_map, Forall_forall. intros o Ho.
      apply normalized_entry_range; [exact Hlt|].
      intros v ->. rewrite Forall_forall in Hall. apply Hall.
      rewrite <- E. apply usable_elem. exact Ho.
Qed.


(** ** Catalog filter *)

Lemma filter_filter_andb {A : Type} (p q : A → bool) (l : list A) :
  List.filter q (List.filter p l) = List.filter (fun x => (p x && q x)%bool) l.
Proof.
  induction l as [|x l IH]; [reflexivity|].
  cbn [List.filter]. destruct (p x); cbn [List.filter andb].
  - destruct (q x); congruence.
  - exact IH.
Qed.

Lemma filter_true {A : Type} (l : list A) :
  List.filter (fun _ => true) l = l.
Proof. induction l as [|x l IH]; [reflexivity|]. cbn. congruence. Qed.

Lemma apply_bound_select (py_float : string → option Q) (intent : Intent)
    (keys : list string) (col : string) (mask : string → Q → Row → bool)
    (df : DataFrame) :
  apply_bound py_float intent keys col mask df
  = select (bound_holds py_float intent df keys col mask) df.
Proof.
  unfold apply_bound, bound_holds, select.
  destruct df as [cols rows]; cbn [df_columns df_rows].
  destruct (_get_float py_float intent keys) as [bound|].
  - destruct (has_column _ col); [reflexivity|].
    rewrite filter_true. reflexivity.
  - rewrite filter_true. reflexivity.
Qed.

Lemma bound_holds_select (py_float : string → option Q) (intent : Intent)
    (p : Row → bool) (df : DataFrame) (keys : list string) (col : string)
    (mask : string → Q → Row → bool) :
  bound_holds py_float intent (select p df) keys col mask
  = bound_holds py_float intent df keys col mask.
Proof. reflexivity. Qed.

(** The four blocks together keep the rows that meet every bound. *)
Lemma numeric_filters_meets (py_float : string → option Q) (intent : Intent)
    (df : DataFrame) :
  numeric_filters py_float intent df
  = select (meets_bounds py_float intent df) df.
Proof.
  unfold numeric_filters. rewrite !apply_bound_select.
  rewrite !bound_holds_select.
  unfold select, meets_bounds; cbn [df_columns df_rows].
  rewrite !filter_filter_andb. f_equal.
  apply List.filter_ext. intros r. rewrite !andb_assoc. reflexivity.
Qed.

Lemma select_category_rows (category : string) (df : DataFrame) :
  Forall (fun r => cell_at r "category" = CStr category)
    (df_rows (select (is_category category) df)).
Proof.
  unfold select; cbn [df_rows]. apply Forall_forall. intros r Hr.
  apply list_elem_of_In, filter_In in Hr as [_ Hr].
  unfold is_category in Hr.
  destruct (cell_at r "category") as [|q|s]; try discriminate.
  apply String.eqb_eq in Hr. congruence.
Qed.

Lemma filter_sublist {A : Type} (p : A → bool) (l : list A) :
  sublist (List.filter p l) l.
Proof.
  induction l as [|x l IH]; [constructor|].
  cbn [List.filter]. destruct (p x); constructor; exact IH.
Qed.

(** C7: on a catalog that has a category column, for every intent and
    query, [filter_products] returns a frame; the numeric filters keep the
    rows of the resolved category that meet every bound; if none is left
    the result is the full set of rows of the resolved category, and if
    some are left the result is those; every row returned has the
    resolved category. *)
Theorem filter_products_category_enforced (py_float : string → option Q)
    (to_numeric_str : string → option Q) (raw : DataFrame)
    (intent : Intent) (user_query : option string) :
  has_column raw "category" = true →
  let category := detect_category intent user_query in
  let matching := select (is_category category) (_catalog_df to_numeric_str raw) in
  let filtered := numeric_filters py_float intent matching in
  ∃ df, filter_products py_float to_numeric_str raw intent user_query = Ok df
    ∧ df_rows filtered
      = List.filter (meets_bounds py_float intent matching) (df_rows matching)
    ∧ df = (if bool_decide (df_rows filtered = []) then matching else filtered)
    ∧ sublist (df_rows df) (df_rows matching)
    ∧ Forall (fun r => cell_at r "category" = CStr category) (df_rows df).
Proof.
  intros Hcol. cbv zeta.
  set (category := detect_category intent user_query).
  set (matching := select (is_category category) (_catalog_df to_numeric_str raw)).
  unfold filter_products.
  change (has_column (_catalog_df to_numeric_str raw) "category")
    with (has_column raw "category").
  rewrite Hcol. fold category. fold matching.
  pose proof (numeric_filters_meets py_float intent matching) as Hnum.
  assert (Hcols : df_columns (numeric_filters py_float intent matching) ≠ []).
  { rewrite Hnum. unfold has_column in Hcol. apply bool_decide_eq_true in Hcol.
    cbn [select df_columns matching _catalog_df].
    destruct (df_columns raw); [inversion Hcol|discriminate]. }
  assert (Hempty : df_empty (numeric_filters py_float intent matching)
                   = bool_decide (df_rows (numeric_filters py_float intent matching) = [])).
  { unfold df_empty.
    destruct (df_columns (numeric_filters py_float intent matching));
      [contradiction|].
    destruct (df_rows (numeric_filters py_float intent matching)); reflexivity. }
  rewrite Hempty.
  exists (if bool_decide (df_rows (numeric_filters py_float intent matching) = [])
          then matching else numeric_filters py_float intent matching).
  split; [destruct (bool_decide _); reflexivity|].
  split; [rewrite Hnum; reflexivity|].
  split; [reflexivity|].
  assert (Hsub : sublist (df_rows (numeric_filters py_float intent matching))
                   (df_rows matching)).
  { rewrite Hnum. apply filter_sublist. }
  destruct (bool_decide _).
  - split; [reflexivity|apply select_category_rows].
  - split; [exact Hsub|].
    apply Forall_forall. intros r Hr.
    pose proof (select_category_rows category (_catalog_df to_numeric_str raw))
      as Hall.
    rewrite Forall_forall in Hall. apply Hall.
    eapply elem_of_sublist; [exact Hr|exact Hsub].
Qed.

(** What [filter_products] returns on a catalog with a category column. *)
Lemma filter_products_shape (py_float : string → option Q)
    (to_numeric_str : string → option Q) (raw : DataFrame)
    (intent : Intent) (user_query : option string) :
  has_column raw "category" = true →
  let matching :=
    select (is_category (detect_category intent user_query))
      (_catalog_df to_numeric_str raw) in
  let filtered := numeric_filters py_float intent matching in
  filter_products py_float to_numeric_str raw intent user_query
  = Ok (if bool_decide (df_rows filtered = []) then matching else filtered)
  ∧ df_rows filtered
    = List.filter (meets_bounds py_float intent matching) (df_rows matching)
  ∧ df_columns filtered = df_columns raw.
Proof.
  intros Hcol. cbv zeta. unfold filter_products.
  change (has_column (_catalog_df to_numeric_str raw) "category")
    with (has_column raw "category").
  rewrite Hcol. rewrite numeric_filters_meets.
  split; [|split; reflexivity].
  unfold df_empty. cbn [select df_columns df_rows _catalog_df].
  apply bool_decide_eq_true in Hcol.
  destruct (df_columns raw) as [|c cols]; [inversion Hcol|].
  destruct (List.filter _ _) as [|r rows].
  - rewrite bool_decide_eq_true_2 by reflexivity. reflexivity.
  - rewrite bool_decide_eq_false_2 by discriminate. reflexivity.
Qed.

(** What [filter_products] returns is a frame [rank_products] can read
    the category of. *)
Lemma first_category_filtered (py_float : string → option Q)
    (to_numeric_str : string → option Q) (raw : DataFrame)
    (intent : Intent) (user_query : option string) (df : DataFrame) :
  filter_products py_float to_numeric_str raw intent user_query = Ok df →
  df_rows df ≠ [] →
  first_category df
  = Ok (PyStr.lower (PyStr.strip (detect_category intent user_query))).
Proof.
  intros Hdf Hrows.
  destruct (has_column raw "category") eqn:Hcol.
  - destruct (filter_products_shape py_float to_numeric_str raw intent
                user_query Hcol) as (Hshape & Hfiltered & Hcols).
    rewrite Hdf in Hshape. injection Hshape as Heq.
    assert (Hall : Forall (fun r => cell_at r "category"
                                    = CStr (detect_category intent user_query))
                     (df_rows df)).
    { rewrite Heq. case_bool_decide; [apply select_category_rows|].
      rewrite Hfiltered. apply Forall_forall. intros r Hr.
      apply list_elem_of_In, filter_In in Hr as [Hr _].
      pose proof (select_category_rows (detect_category intent user_query)
                    (_catalog_df to_numeric_str raw)) as Hsel.
      rewrite Forall_forall in Hsel. apply Hsel, list_elem_of_In, Hr. }
    assert (Hsame : df_columns df = df_columns raw).
    { rewrite Heq. case_bool_decide; [reflexivity|exact Hcols]. }
    unfold first_category, has_column, column. rewrite Hsame.
    unfold has_column in Hcol. rewrite Hcol.
    destruct (df_rows df) as [|r rows]; [contradiction|].
    inversion Hall as [|? ? Hr _]; subst. cbn [map]. rewrite Hr. reflexivity.
  - unfold filter_products in Hdf.
    change (has_column (_catalog_df to_numeric_str raw) "category")
      with (has_column raw "category") in Hdf.
    rewrite Hcol in Hdf. discriminate.
Qed.

(** C1: with the intent of the example, whose budget sits under
    [budget_usd] and whose minimum RAM sits inside [hard_constraints],
    [_get_float] finds neither bound and [filter_products] returns both
    laptops. Under keys the filter reads, the same bounds leave the $850
    laptop alone. *)
Theorem filter_products_ignores_budget_usd :
  _get_float decimal_float intent_budget_usd budget_keys = None
  ∧ _get_float decimal_float intent_budget_usd ram_keys = None
  ∧ filter_products decimal_float decimal_float two_laptops
      intent_budget_usd None
    = Ok {| df_columns := df_columns two_laptops;
            df_rows := [laptop_850; laptop_950] |}
  ∧ filter_products decimal_float decimal_float two_laptops
      intent_alias_keys None
    = Ok {| df_columns := df_columns two_laptops;
            df_rows := [laptop_850] |}.
Proof. repeat split; vm_compute; reflexivity. Qed.

(** ** Sorting by an index array *)

Lemma rev_lookup {A : Type} (l : list A) (i : nat) :
  (i < length l)%nat → rev l !! i = l !! (length l - S i)%nat.
Proof. intros H. rewrite rev_alt. apply (reverse_lookup l i H). Qed.

Lemma mapM_lookup_in_range {A : Type} (l : list A) (idx : list nat) :
  Forall (fun i => (i < length l)%nat) idx →
  mapM (fun i => l !! i) idx = Some (omap (fun i => l !! i) idx).
Proof.
  induction 1 as [|i idx Hi _ IH]; [reflexivity|].
  destruct (lookup_lt_is_Some_2 l i Hi) as [x Hx].
  cbn. rewrite Hx. cbn. rewrite IH. reflexivity.
Qed.

Lemma omap_lookup_seq_from {A : Type} (l : list A) : ∀ pre : list A,
  omap (fun i => (pre ++ l) !! i) (seq (length pre) (length l)) = l.
Proof.
  induction l as [|a l IH]; intros pre; [reflexivity|].
  cbn [length seq]. cbn [omap list_omap].
  rewrite list_lookup_middle by reflexivity.
  f_equal. specialize (IH (pre ++ [a])).
  rewrite <- app_assoc, length_app in IH. cbn [length app] in IH.
  rewrite Nat.add_1_r in IH. exact IH.
Qed.

Lemma omap_lookup_seq {A : Type} (l : list A) :
  omap (fun i => l !! i) (seq 0 (length l)) = l.
Proof. exact (omap_lookup_seq_from l []). Qed.

Lemma perm_seq_in_range (n : nat) (idx : list nat) :
  idx ≡ₚ seq 0 n → Forall (fun i => (i < n)%nat) idx.
Proof.
  intros H. apply Forall_forall. intros i Hi.
  rewrite H in Hi. apply list_elem_of_In, in_seq in Hi. lia.
Qed.

(** Reading a list through a permutation of its positions permutes it. *)
Lemma take_rows_permutation {A : Type} (l : list A) (idx : list nat) :
  idx ≡ₚ seq 0 (length l) →
  take_rows l idx = Ok (omap (fun i => l !! i) idx)
  ∧ omap (fun i => l !! i) idx ≡ₚ l.
Proof.
  intros H. split.
  - unfold take_rows.
    rewrite (mapM_lookup_in_range l idx (perm_seq_in_range _ _ H)).
    reflexivity.
  - rewrite H. rewrite omap_lookup_seq. reflexivity.
Qed.

Lemma omap_rev {A B : Type} (f : A → option B) (l : list A) :
  omap f (rev l) = rev (omap f l).
Proof.
  induction l as [|x l IH]; [reflexivity|].
  cbn [rev]. rewrite omap_app, IH. cbn [omap list_omap].
  destruct (f x); cbn [rev]; [reflexivity|].
  rewrite app_nil_r. reflexivity.
Qed.

Lemma map_snd_omap_lookup {A B : Type} (l : list (A * B)) (idx : list nat) :
  map snd (omap (fun i => l !! i) idx)
  = omap (fun i => map snd l !! i) idx.
Proof.
  induction idx as [|i idx IH]; [reflexivity|].
  cbn [omap list_omap].
  change (map snd l) with (snd <$> l) in *. rewrite list_lookup_fmap.
  destruct (l !! i) as [[a b]|]; cbn; [f_equal|]; exact IH.
Qed.

Lemma is_argsort_spec (keys : list Q) (idx : list nat) :
  is_argsort keys idx = true →
  idx ≡ₚ seq 0 (length keys)
  ∧ ascending (omap (fun i => keys !! i) idx) = true.
Proof.
  unfold is_argsort. rewrite !andb_true_iff.
  intros [[[Hnodup Hrange] Hlen] Hasc]. split; [|exact Hasc].
  apply bool_decide_eq_true in Hnodup, Hrange.
  apply Nat.eqb_eq in Hlen.
  apply NoDup_Permutation_bis; [apply NoDup_ListNoDup; exact Hnodup| |].
  - rewrite length_seq. lia.
  - intros i Hi. apply in_seq. rewrite Forall_forall in Hrange.
    apply list_elem_of_In, Hrange in Hi. lia.
Qed.

Lemma ascending_sorted (l : list Q) :
  ascending l = true → StronglySorted Qle l.
Proof.
  intros H. apply Sorted.Sorted_StronglySorted.
  { intros x y z. apply Qle_trans. }
  induction l as [|x l IH]; [constructor|].
  cbn [ascending] in H. destruct l as [|y l]; [repeat constructor|].
  apply andb_true_iff in H as [Hxy Hrest].
  constructor; [apply IH; exact Hrest|].
  constructor. apply Qle_bool_iff. exact Hxy.
Qed.

Lemma StronglySorted_rev {A : Type} (R : A → A → Prop) (l : list A) :
  StronglySorted R l → StronglySorted (fun x y => R y x) (rev l).
Proof.
  induction 1 as [|x l _ IH Hx]; [constructor|].
  cbn [rev]. apply StronglySorted_app. split; [|split; [exact IH|]].
  - intros a b Ha Hb. apply list_elem_of_In, in_rev in Ha.
    apply list_elem_of_singleton in Hb as ->.
    rewrite Forall_forall in Hx. apply Hx, list_elem_of_In, Ha.
  - repeat constructor.
Qed.

(** ** Scorer *)

Lemma lookup_map {A B : Type} (f : A → B) (l : list A) (i : nat) :
  map f l !! i = f <$> l !! i.
Proof. exact (list_lookup_fmap f l i). Qed.

Lemma unit_interval_neutral : unit_interval neutral.
Proof. split; discriminate. Qed.

Lemma unit_interval_mix (a b x y : Q) :
  0 <= a → 0 <= b → a + b == 1 → unit_interval x → unit_interval y →
  unit_interval (a * x + b * y).
Proof. unfold unit_interval. intros Ha Hb Hab [? ?] [? ?]. split; nra. Qed.


Section ScorerProperties.

Context (py_repr : pyval → string) (to_numeric_str : string → option Q).
Context (argsort : list Q → list nat).
Context (World : Type) (chat_llm : string → World → (string + string) * World).
Context (render_prompt : string → string → Row → Q → Z → string).

Lemma column_score_range (df : DataFrame) (col : string) (hib : bool) :
  length (column_score to_numeric_str df col hib) = length (df_rows df)
  ∧ Forall unit_interval (column_score to_numeric_str df col hib).
Proof.
  unfold column_score, neutral_series. destruct (has_column df col).
  - destruct (normalize_series_range to_numeric_str (column df col) hib)
      as [Hlen Hall].
    split; [|exact Hall]. rewrite Hlen. unfold column. apply length_map.
  - rewrite length_replicate. split; [reflexivity|].
    apply Forall_replicate, unit_interval_neutral.
Qed.

Lemma performance_score_range (df : DataFrame) (category : string) :
  length (performance_score to_numeric_str df category) = length (df_rows df)
  ∧ Forall unit_interval (performance_score to_numeric_str df category).
Proof.
  unfold performance_score, neutral_series. destruct (portable category).
  - destruct (column_score_range df "ram_gb" true) as [Hl1 Ha1].
    destruct (column_score_range df "storage_gb" true) as [Hl2 Ha2].
    split.
    + rewrite length_zip_with, !length_map, Hl1, Hl2. lia.
    + apply Forall_lookup. intros i y Hy.
      rewrite lookup_zip_with, !lookup_map in Hy.
      destruct (column_score to_numeric_str df "ram_gb" true !! i)
        as [a|] eqn:Ea; [|discriminate].
      destruct (column_score to_numeric_str df "storage_gb" true !! i)
        as [b|] eqn:Eb; [|discriminate].
      cbn in Hy. injection Hy as <-.
      apply unit_interval_mix; try (vm_compute; congruence).
      * exact (Forall_lookup_1 _ _ _ _ Ha1 Ea).
      * exact (Forall_lookup_1 _ _ _ _ Ha2 Eb).
  - rewrite length_replicate. split; [reflexivity|].
    apply Forall_replicate, unit_interval_neutral.
Qed.

Lemma score_continuous_length (df : DataFrame) (category : string)
    (w : Weights) :
  length (score_continuous to_numeric_str df category w)
  = length (df_rows df).
Proof.
  unfold score_continuous, price_score, battery_score, screen_score.
  rewrite !length_zip_with, !length_map.
  rewrite !(proj1 (column_score_range df _ _)).
  rewrite (proj1 (performance_score_range df category)). lia.
Qed.


Lemma omap_rev_index (keys : list Q) (idx : list nat) :
  Forall (fun i => (i < length keys)%nat) idx →
  omap (fun i => keys !! i)
    (omap (fun i => rev (seq 0 (length keys)) !! i) idx)
  = omap (fun i => rev keys !! i) idx.
Proof.
  induction 1 as [|i idx Hi _ IH]; [reflexivity|].
  cbn [omap list_omap].
  rewrite (rev_lookup (seq 0 (length keys)) i)
    by (rewrite length_seq; exact Hi).
  rewrite length_seq, lookup_seq_lt by lia. cbn [Nat.add omap list_omap].
  rewrite (rev_lookup keys i Hi), IH. reflexivity.
Qed.

(** With an index order that meets the contract of [argsort], [nargsort]
    returns a permutation of the positions along which the keys descend. *)
Lemma nargsort_ok (keys : list Q) :
  is_argsort (rev keys) (argsort (rev keys)) = true →
  ∃ indexer, nargsort argsort keys = Ok indexer
    ∧ indexer ≡ₚ seq 0 (length keys)
    ∧ StronglySorted no_less (omap (fun i => keys !! i) indexer).
Proof.
  intros H. apply is_argsort_spec in H as [Hperm Hasc].
  rewrite length_rev in Hperm.
  pose proof (perm_seq_in_range _ _ Hperm) as Hrange.
  destruct (take_rows_permutation (rev (seq 0 (length keys)))
              (argsort (rev keys))) as [Htake Hp].
  { rewrite length_rev, length_seq. exact Hperm. }
  unfold nargsort. rewrite Htake. cbn [mbind result_bind].
  eexists. split; [reflexivity|]. split.
  - rewrite <- Permutation_rev, Hp, <- Permutation_rev. reflexivity.
  - rewrite omap_rev, (omap_rev_index keys _ Hrange).
    apply (StronglySorted_rev Qle), ascending_sorted, Hasc.
Qed.

Lemma sort_values_ok (rows : list (Row * Q)) :
  is_argsort (rev (map snd rows)) (argsort (rev (map snd rows))) = true →
  ∃ sorted, sort_values argsort rows = Ok sorted
    ∧ sorted ≡ₚ rows
    ∧ StronglySorted no_less (map snd sorted).
Proof.
  intros H. destruct (nargsort_ok _ H) as (indexer & Hn & Hperm & Hsorted).
  rewrite length_map in Hperm.
  destruct (take_rows_permutation rows indexer Hperm) as [Htake Hp].
  unfold sort_values. rewrite Hn. cbn [mbind result_bind]. rewrite Htake.
  eexists. split; [reflexivity|]. split; [exact Hp|].
  rewrite map_snd_omap_lookup. exact Hsorted.
Qed.

Lemma compute_weights_goal_strings (intent : Intent) (category : string)
    (w : Weights) :
  _compute_weights py_repr intent category = Ok w →
  ∃ goals, goal_strings py_repr intent = Ok goals
    ∧ w = normalize_weights (bumped_weights category (map PyStr.lower goals)).
Proof.
  unfold _compute_weights.
  destruct (goal_strings py_repr intent) as [goals|e]; cbn; [|discriminate].
  intros [= <-]. eexists. split; reflexivity.
Qed.

(** The weights [rank_products] works with are non-negative and sum
    to 1. *)
Lemma compute_weights_convex (intent : Intent) (category : string)
    (w : Weights) :
  _compute_weights py_repr intent category = Ok w →
  0 <= weight_of "price" w ∧ 0 <= weight_of "performance" w
  ∧ 0 <= weight_of "battery" w ∧ 0 <= weight_of "screen" w
  ∧ weight_of "price" w + weight_of "performance" w
    + weight_of "battery" w + weight_of "screen" w == 1.
Proof.
  intros H. apply compute_weights_goal_strings in H as (goals & _ & ->).
  destruct (bumped_weights_four category (map PyStr.lower goals))
    as (p & f & b & s & _ & -> & Hp & Hf & Hb & Hs & Hsum).
  pose proof (bump_each_ge hits_price (map PyStr.lower goals) p).
  pose proof (bump_each_ge hits_performance (map PyStr.lower goals) f).
  pose proof (bump_each_ge hits_battery (map PyStr.lower goals) b).
  pose proof (bump_each_ge hits_screen (map PyStr.lower goals) s).
  destruct (normalized_four
              (bump_each hits_price (map PyStr.lower goals) p)
              (bump_each hits_performance (map PyStr.lower goals) f)
              (bump_each hits_battery (map PyStr.lower goals) b)
              (bump_each hits_screen (map PyStr.lower goals) s))
    as (p' & f' & b' & s' & -> & Hp' & Hf' & Hb' & Hs' & Hsum'); try lra.
  cbn [weight_of four String.eqb Ascii.eqb Bool.eqb].
  repeat (split; [assumption|]). exact Hsum'.
Qed.

Lemma prepare_ok (intent : Intent) (df : DataFrame) (keys : list Q) :
  continuous_scores py_repr to_numeric_str intent df = Ok keys →
  is_argsort (rev keys) (argsort (rev keys)) = true →
  ∃ category wts df_sorted goals,
    prepare py_repr to_numeric_str argsort intent df
    = Ok (category, wts, df_sorted, goals)
    ∧ first_category df = Ok category
    ∧ _compute_weights py_repr intent category = Ok wts
    ∧ keys = score_continuous to_numeric_str df category wts
    ∧ df_sorted ≡ₚ zip (df_rows df) keys
    ∧ StronglySorted no_less (map snd df_sorted).
Proof.
  unfold continuous_scores, prepare. intros Hkeys Hsort.
  destruct (first_category df) as [category|e]; cbn in *; [|discriminate].
  destruct (_compute_weights py_repr intent category) as [wts|e] eqn:Hw;
    cbn in *; [|discriminate].
  injection Hkeys as <-.
  destruct (compute_weights_goal_strings _ _ _ Hw) as (goals & Hgoals & _).
  assert (Hsnd : map snd (scored_rows to_numeric_str df category wts)
                 = score_continuous to_numeric_str df category wts).
  { unfold scored_rows. apply (snd_zip (df_rows df)).
    rewrite score_continuous_length. lia. }
  destruct (sort_values_ok (scored_rows to_numeric_str df category wts))
    as (sorted & Hs & Hperm & Hsorted).
  { rewrite Hsnd. exact Hsort. }
  rewrite Hs, Hgoals. cbn.
  exists category, wts, sorted, goals.
  split; [reflexivity|]. split; [reflexivity|]. split; [exact Hw|].
  split; [reflexivity|]. split; [exact Hperm|exact Hsorted].
Qed.

Lemma explain_rows_answers (df : DataFrame) (rows : list (Row * Q))
    (category : string) (goals : list string) : ∀ w : World,
  fst (explain_rows World chat_llm render_prompt df rows category goals w)
  = zip_with (fun rs answer => make_item df (fst rs) (snd rs) (explanation_of answer))
      rows (answers World chat_llm render_prompt rows category goals w)
  ∧ length (answers World chat_llm render_prompt rows category goals w)
    = length rows.
Proof.
  induction rows as [|[row s] rows IH]; intros w; [split; reflexivity|].
  cbn [explain_rows answers].
  destruct (_build_explanation World chat_llm render_prompt row s category goals w)
    as [answer w1].
  destruct (IH w1) as [IH1 IH2].
  destruct (explain_rows World chat_llm render_prompt df rows category goals w1)
    as [items w2].
  cbn [fst] in *. cbn [zip_with length fst snd]. rewrite IH1, IH2.
  split; reflexivity.
Qed.

Lemma rank_products_prepared (intent : Intent) (df : DataFrame) (w : World)
    (category : string) (wts : Weights) (df_sorted : list (Row * Q))
    (goals : list string) :
  df_empty df = false →
  prepare py_repr to_numeric_str argsort intent df
  = Ok (category, wts, df_sorted, goals) →
  fst (rank_products py_repr to_numeric_str argsort World chat_llm
         render_prompt intent (Some df) w)
  = Ok {| results :=
            fst (explain_rows World chat_llm render_prompt df df_sorted
                   category goals w);
          category := Some category;
          weights := wts |}.
Proof.
  intros Hne Hprep. unfold rank_products. rewrite Hne, Hprep.
  destruct (explain_rows World chat_llm render_prompt df df_sorted category
              goals w) as [items w']. reflexivity.
Qed.

Lemma explain_rows_items (df : DataFrame) (rows : list (Row * Q))
    (category : string) (goals : list string) : ∀ w : World,
  Forall2 (fun item rs =>
             ∃ e, item = make_item df (fst rs) (snd rs) e)
    (fst (explain_rows World chat_llm render_prompt df rows category goals w))
    rows.
Proof.
  induction rows as [|[row s] rows IH]; intros w; [constructor|].
  cbn [explain_rows].
  destruct (_build_explanation World chat_llm render_prompt row s category goals w)
    as [answer w1].
  specialize (IH w1).
  destruct (explain_rows World chat_llm render_prompt df rows category goals w1)
    as [items w2].
  cbn [fst] in *. constructor; [eexists; reflexivity|exact IH].
Qed.

(** C2, as amended: for every non-empty product set whose category and
    goals can be read, and an index order from [argsort] that meets its
    contract, [rank_products] returns a ranking whose entries follow the
    scored rows in an order that is a permutation of the input and along
    which the continuous score never increases. (Which of two rows with
    equal scores comes first is the choice of [argsort].) *)
Theorem rank_products_sorted (intent : Intent) (df : DataFrame) (w : World)
    (keys : list Q) :
  df_empty df = false →
  continuous_scores py_repr to_numeric_str intent df = Ok keys →
  is_argsort (rev keys) (argsort (rev keys)) = true →
  ∃ df_sorted ranking,
    fst (rank_products py_repr to_numeric_str argsort World chat_llm
           render_prompt intent (Some df) w) = Ok ranking
    ∧ df_sorted ≡ₚ zip (df_rows df) keys
    ∧ StronglySorted no_less (map snd df_sorted)
    ∧ Forall2 (fun item rs =>
                 id item = row_get df (fst rs) "id"
                 ∧ score item = py_round (snd rs * 100))
        (results ranking) df_sorted.
Proof.
  intros Hne Hkeys Hsort.
  destruct (prepare_ok intent df keys Hkeys Hsort)
    as (category & wts & df_sorted & goals & Hprep & _ & _ & _ & Hperm & Hsorted).
  exists df_sorted. eexists.
  split; [exact (rank_products_prepared intent df w _ _ _ _ Hne Hprep)|].
  split; [exact Hperm|]. split; [exact Hsorted|].
  cbn [results].
  eapply Forall2_impl; [apply explain_rows_items|].
  intros item rs [e ->]. split; reflexivity.
Qed.




(** C8: for every intent, [rank_products] on an absent product set or on
    an empty one returns exactly the record with an empty result list, no
    category and an empty weight set; it does not raise and does not call
    the text-generation service. *)
Theorem rank_products_empty (intent : Intent) (products : option DataFrame)
    (w : World) :
  products = None ∨ (∃ df, products = Some df ∧ df_empty df = true) →
  rank_products py_repr to_numeric_str argsort World chat_llm render_prompt
    intent products w
  = (Ok {| results := []; category := None; weights := [] |}, w).
Proof.
  intros [->|(df & -> & Hempty)]; unfold rank_products;
    [|rewrite Hempty]; reflexivity.
Qed.

(** C9: once [rank_products] has sorted the rows, the entry at every rank
    is built from the row at that rank and from what the service answered
    for it: its id, title and score do not depend on the answer; where
    the call raised, the explanation is the placeholder built from the
    exception, which is not empty; where it returned a text, the
    explanation is that text. The result has one entry per sorted row, in
    the sorted order, and [rank_products] returns it whatever the service
    did. *)
Theorem explanation_failure_isolated (intent : Intent) (df : DataFrame)
    (w : World) (category : string) (wts : Weights)
    (df_sorted : list (Row * Q)) (goals : list string) :
  df_empty df = false →
  prepare py_repr to_numeric_str argsort intent df
  = Ok (category, wts, df_sorted, goals) →
  let said := answers World chat_llm render_prompt df_sorted category goals w in
  ∃ ranking,
    fst (rank_products py_repr to_numeric_str argsort World chat_llm
           render_prompt intent (Some df) w) = Ok ranking
    ∧ length said = length df_sorted
    ∧ length (results ranking) = length df_sorted
    ∧ results ranking
      = zip_with (fun rs answer =>
                    make_item df (fst rs) (snd rs) (explanation_of answer))
          df_sorted said
    ∧ (∀ i rs answer,
         df_sorted !! i = Some rs → said !! i = Some answer →
         ∃ item, results ranking !! i = Some item
           ∧ id item = row_get df (fst rs) "id"
           ∧ title item
             = or_else (row_get df (fst rs) "title")
                 (or_else (row_get df (fst rs) "model") (CStr "Unknown product"))
           ∧ score item = py_round (snd rs * 100)
           ∧ explanation item
             = match answer with
               | inl text => text
               | inr e => "(Could not generate explanation: " +:+ e +:+ ")"
               end)
    ∧ (∀ e, "(Could not generate explanation: " +:+ e +:+ ")" ≠ EmptyString).
Proof.
  intros Hne Hprep. cbv zeta.
  destruct (explain_rows_answers df df_sorted category goals w) as [Hitems Hlen].
  eexists.
  split; [exact (rank_products_prepared intent df w _ _ _ _ Hne Hprep)|].
  cbn [results]. rewrite Hitems.
  split; [exact Hlen|]. split; [rewrite length_zip_with, Hlen; lia|].
  split; [reflexivity|]. split; [|intros e; discriminate].
  intros i rs answer Hrs Hanswer.
  rewrite lookup_zip_with, Hrs, Hanswer. cbn [mbind option_bind].
  eexists. split; [reflexivity|].
  cbn [id title score explanation make_item].
  repeat (split; [reflexivity|]). destruct answer; reflexivity.
Qed.

End ScorerProperties.

(** * The theorems at concrete inputs *)

(** C3 at the goal list ["Battery_Life"; "cheap gaming"]. *)
Lemma compute_weights_weight_set_witness :
  goal_field (intent_battery !! "primary_goals")
  ∧ ((∃ w, _compute_weights simple_repr intent_battery "laptop" = Ok w
        ∧ map fst w = ["price"; "performance"; "battery"; "screen"]%string
        ∧ Forall (fun kv => 0 <= snd kv) w
        ∧ sum_values w == 1)
     ∧ (∀ p f b s, sum_values (four p f b s) <= 0 →
          map fst (normalize_weights (four p f b s))
          = ["price"; "performance"; "battery"; "screen"]%string
          ∧ Forall (fun kv => snd kv == 0.25)
              (normalize_weights (four p f b s)))).
Proof.
  assert (H : goal_field (intent_battery !! "primary_goals")).
  { vm_compute. apply goal_field_list. }
  split; [exact H|].
  exact (compute_weights_weight_set simple_repr intent_battery "laptop" H).
Defined.

(** The fallback of the normalization on a dictionary whose total is not
    positive. *)
Example normalize_weights_fallback :
  normalize_weights (four 0 0 0 0) = four (1 / 4) (1 / 4) (1 / 4) (1 / 4).
Proof. reflexivity. Qed.


(** C7 at a budget of $100, which no laptop of the catalog meets. *)
Lemma filter_products_category_enforced_witness :
  has_column two_laptops "category" = true
  ∧ (let category := detect_category intent_too_cheap None in
     let matching :=
       select (is_category category) (_catalog_df decimal_float two_laptops) in
     let filtered := numeric_filters decimal_float intent_too_cheap matching in
     ∃ df, filter_products decimal_float decimal_float two_laptops
             intent_too_cheap None = Ok df
       ∧ df_rows filtered
         = List.filter (meets_bounds decimal_float intent_too_cheap matching)
             (df_rows matching)
       ∧ df = (if bool_decide (df_rows filtered = []) then matching else filtered)
       ∧ sublist (df_rows df) (df_rows matching)
       ∧ Forall (fun r => cell_at r "category" = CStr category) (df_rows df)).
Proof.
  split; [reflexivity|].
  apply (filter_products_category_enforced decimal_float decimal_float
           two_laptops intent_too_cheap None).
  reflexivity.
Defined.

(** The fallback in that case: the bound is read, nothing meets it, and
    both laptops come back. *)
Example filter_products_fallback :
  _get_float decimal_float intent_too_cheap budget_keys = Some 100
  ∧ df_rows (numeric_filters decimal_float intent_too_cheap
               (select (is_category "laptop")
                  (_catalog_df decimal_float two_laptops))) = []
  ∧ filter_products decimal_float decimal_float two_laptops intent_too_cheap
      None
    = Ok {| df_columns := df_columns two_laptops;
            df_rows := [laptop_850; laptop_950] |}.
Proof. repeat split; vm_compute; reflexivity. Qed.

(** C8 at a frame without rows. *)
Lemma rank_products_empty_witness :
  (Some no_laptops = None
   ∨ (∃ df, Some no_laptops = Some df ∧ df_empty df = true))
  ∧ rank_products simple_repr decimal_float insertion_argsort
      (list (string + string)) scripted_llm short_prompt
      intent_battery (Some no_laptops) [inr "down"%string]
    = (Ok {| results := []; category := None; weights := [] |},
       [inr "down"%string]).
Proof.
  assert (H : Some no_laptops = None
              ∨ (∃ df, Some no_laptops = Some df ∧ df_empty df = true)).
  { right. exists no_laptops. split; reflexivity. }
  split; [exact H|].
  exact (rank_products_empty simple_repr decimal_float insertion_argsort
           (list (string + string)) scripted_llm short_prompt
           intent_battery (Some no_laptops) [inr "down"%string] H).
Defined.

(** C2 at three laptops, with the insertion argsort and a service that
    fails on its second call. *)
Lemma rank_products_sorted_witness :
  df_empty three_laptops = false
  ∧ continuous_scores simple_repr decimal_float intent_battery three_laptops
    = Ok three_keys
  ∧ is_argsort (rev three_keys) (insertion_argsort (rev three_keys)) = true
  ∧ ∃ df_sorted ranking,
      fst (rank_products simple_repr decimal_float insertion_argsort
             (list (string + string)) scripted_llm short_prompt
             intent_battery (Some three_laptops) three_answers) = Ok ranking
      ∧ df_sorted ≡ₚ zip (df_rows three_laptops) three_keys
      ∧ StronglySorted no_less (map snd df_sorted)
      ∧ Forall2 (fun item rs =>
                   id item = row_get three_laptops (fst rs) "id"
                   ∧ score item = py_round (snd rs * 100))
          (results ranking) df_sorted.
Proof.
  split; [reflexivity|].
  split; [vm_compute; reflexivity|].
  split; [vm_compute; reflexivity|].
  apply (rank_products_sorted simple_repr decimal_float insertion_argsort
           (list (string + string)) scripted_llm short_prompt
           intent_battery three_laptops three_answers three_keys);
    [reflexivity|vm_compute; reflexivity|vm_compute; reflexivity].
Defined.

(** C2 fails on eighteen laptops with equal scores: the index order is one
    [argsort] may return, and the ranking lists the laptops 16 down to 2
    between the laptops 1 and 17, not in the order of the input. *)
Lemma rank_products_reorders_ties :
  (∃ s, continuous_scores simple_repr decimal_float ∅ tied_laptops
        = Ok (replicate 18 s)
        ∧ is_argsort (rev (replicate 18 s))
            (partitioned_argsort (rev (replicate 18 s))) = true)
  ∧ map (fun r => row_get tied_laptops r "id") (df_rows tied_laptops)
    = map (fun n => Some (CNum (inject_Z (Z.of_nat n)))) (seq 0 18)
  ∧ ranked_ids
      (fst (rank_products simple_repr decimal_float partitioned_argsort
              (list (string + string)) scripted_llm short_prompt
              ∅ (Some tied_laptops) []))
    = map (fun n => Some (CNum (inject_Z (Z.of_nat n))))
        [0; 1; 16; 15; 14; 13; 12; 11; 10; 9; 8; 7; 6; 5; 4; 3; 2; 17]%nat
  ∧ ranked_ids
      (fst (rank_products simple_repr decimal_float partitioned_argsort
              (list (string + string)) scripted_llm short_prompt
              ∅ (Some tied_laptops) []))
    ≠ map (fun r => row_get tied_laptops r "id") (df_rows tied_laptops).
Proof.
  split; [eexists; split; vm_compute; reflexivity|].
  split; [vm_compute; reflexivity|].
  split; [vm_compute; reflexivity|].
  intros H. vm_compute in H. discriminate H.
Qed.


(** C9 at three laptops, the service failing for the second of them. *)
Lemma explanation_failure_isolated_witness :
  df_empty three_laptops = false
  ∧ prepare simple_repr decimal_float insertion_argsort intent_battery
      three_laptops
    = Ok ("laptop"%string, three_weights, three_sorted,
          ["Battery_Life"; "cheap gaming"]%string)
  ∧ (let said :=
       answers (list (string + string)) scripted_llm short_prompt three_sorted
         "laptop" ["Battery_Life"; "cheap gaming"]%string three_answers in
     ∃ ranking,
       fst (rank_products simple_repr decimal_float insertion_argsort
              (list (string + string)) scripted_llm short_prompt
              intent_battery (Some three_laptops) three_answers) = Ok ranking
       ∧ length said = length three_sorted
       ∧ length (results ranking) = length three_sorted
       ∧ results ranking
         = zip_with (fun rs answer =>
                       make_item three_laptops (fst rs) (snd rs)
                         (explanation_of answer))
             three_sorted said
       ∧ (∀ i rs answer,
            three_sorted !! i = Some rs → said !! i = Some answer →
            ∃ item, results ranking !! i = Some item
              ∧ id item = row_get three_laptops (fst rs) "id"
              ∧ title item
                = or_else (row_get three_laptops (fst rs) "title")
                    (or_else (row_get three_laptops (fst rs) "model")
                       (CStr "Unknown product"))
              ∧ score item = py_round (snd rs * 100)
              ∧ explanation item
                = match answer with
                  | inl text => text
                  | inr e => "(Could not generate explanation: " +:+ e +:+ ")"
                  end)
       ∧ (∀ e, "(Could not generate explanation: " +:+ e +:+ ")"
               ≠ EmptyString)).
Proof.
  split; [reflexivity|].
  split; [vm_compute; reflexivity|].
  apply (explanation_failure_isolated simple_repr decimal_float
           insertion_argsort (list (string + string)) scripted_llm short_prompt
           intent_battery three_laptops three_answers "laptop" three_weights
           three_sorted ["Battery_Life"; "cheap gaming"]%string);
    [reflexivity|vm_compute; reflexivity].
Defined.

(** The ranking of that run: the second entry carries the placeholder, the
    other two their texts, and the order is the order of the scores. *)
Example one_failure_among_three :
  match
    fst (rank_products simple_repr decimal_float insertion_argsort
           (list (string + string)) scripted_llm short_prompt
           intent_battery (Some three_laptops) three_answers)
  with
  | Ok ranking =>
      map (fun item => (id item, score item, explanation item))
        (results ranking)
      = [(Some (CStr "L-700"), 52%Z, "first"%string);
         (Some (CStr "L-950"), 48%Z,
          "(Could not generate explanation: down)"%string);
         (Some (CStr "L-850"), 42%Z, "third"%string)]
  | Raise _ => False
  end.
Proof. vm_compute. reflexivity. Qed.

(** * Further properties of the catalog filter *)

Lemma lower_ascii_idempotent (c : ascii) :
  PyStr.lower_ascii (PyStr.lower_ascii c) = PyStr.lower_ascii c.
Proof. destruct c as [[] [] [] [] [] [] [] []]; reflexivity. Qed.

Lemma lower_idempotent (s : string) :
  PyStr.lower (PyStr.lower s) = PyStr.lower s.
Proof.
  induction s as [|c s IH]; [reflexivity|].
  cbn [PyStr.lower]. rewrite lower_ascii_idempotent, IH. reflexivity.
Qed.

Lemma category_from_key_known (intent : Intent) (key c : string) :
  category_from_key intent key = Some c → c ∈ known_categories.
Proof.
  unfold category_from_key.
  destruct (intent !! key) as [[| | |val| |]|]; try discriminate.
  destruct (PyStr.nonempty (PyStr.strip val)); [|discriminate].
  case_bool_decide as Hin; [|discriminate].
  intros [= <-]. exact Hin.
Qed.

Lemma category_from_query_known (q c : string) :
  category_from_query q = Some c → c ∈ known_categories.
Proof.
  unfold category_from_query.
  destruct (List.find _ CATEGORY_KEYWORDS) as [ck|] eqn:E; [|discriminate].
  intros [= <-]. apply find_some in E as [Hin _].
  apply list_elem_of_In. change known_categories with (map fst CATEGORY_KEYWORDS).
  apply in_map. exact Hin.
Qed.

Lemma detect_category_in_table (intent : Intent) (user_query : option string) :
  detect_category intent user_query ∈ known_categories.
Proof.
  unfold detect_category.
  destruct (omap (category_from_key intent) _) as [|c rest] eqn:E.
  - destruct (category_from_query _) as [c|] eqn:Eq; cbn [default].
    + exact (category_from_query_known _ _ Eq).
    + left.
  - assert (Hin : c ∈ c :: rest) by left. rewrite <- E in Hin.
    apply list_elem_of_omap in Hin as (key & _ & Hkey).
    exact (category_from_key_known _ _ _ Hkey).
Qed.

(** X1: whatever the intent and the query, [detect_category] returns one
    of laptop, phone, tablet, monitor. *)
Theorem detect_category_known (intent : Intent) (user_query : option string) :
  detect_category intent user_query ∈ known_categories.
Proof. apply detect_category_in_table. Qed.

(** X2: a string under the key [category] whose stripped lower-case form
    is a known category decides the category: neither the other keys of
    the intent nor the query are consulted. *)
Theorem detect_category_intent_first (intent : Intent)
    (user_query : option string) (val : string) :
  intent !! "category" = Some (PStr val) →
  PyStr.lower (PyStr.strip val) ∈ known_categories →
  detect_category intent user_query = PyStr.lower (PyStr.strip val).
Proof.
  intros Hkey Hknown.
  assert (Hfrom : category_from_key intent "category"
                  = Some (PyStr.lower (PyStr.strip val))).
  { unfold category_from_key. rewrite Hkey.
    destruct (PyStr.strip val) as [|a s] eqn:Es.
    - exfalso. cbn in Hknown. unfold known_categories in Hknown.
      repeat (apply elem_of_cons in Hknown as [Hknown|Hknown];
              [discriminate|]).
      inversion Hknown.
    - cbn [PyStr.nonempty]. rewrite bool_decide_eq_true_2; [reflexivity|].
      exact Hknown. }
  unfold detect_category. cbn [omap list_omap]. rewrite Hfrom. reflexivity.
Qed.

(** X3: the query is read in lower case only, and an absent query is an
    empty one. *)
Theorem detect_category_case_insensitive (intent : Intent) (q : string) :
  detect_category intent (Some q) = detect_category intent (Some (PyStr.lower q))
  ∧ detect_category intent None = detect_category intent (Some EmptyString).
Proof.
  unfold detect_category.
  destruct (omap (category_from_key intent) _); [|split; reflexivity].
  cbv zeta. unfold default; cbn [from_option Datatypes.id].
  rewrite lower_idempotent.
  split; reflexivity.
Qed.

Lemma get_float_cons (py_float : string → option Q) (intent : Intent)
    (k : string) (keys : list string) :
  _get_float py_float intent (k :: keys)
  = match value_float py_float intent k with
    | Some q => Some q
    | None => _get_float py_float intent keys
    end.
Proof.
  cbn [_get_float]. unfold value_float.
  destruct (intent !! k) as [v|]; [|reflexivity]. cbn [mbind option_bind].
  destruct v; reflexivity.
Qed.

(** X4: [_get_float] returns the number under the first key of the list,
    in list order, whose value is present and reads as a number; keys
    that are absent, null or unreadable before it do not block it, and
    the result is [None] exactly when no key of the list has a readable
    value. *)
Theorem get_float_first_usable (py_float : string → option Q)
    (intent : Intent) (keys : list string) :
  (∀ q, _get_float py_float intent keys = Some q ↔
        ∃ before k after,
          keys = before ++ k :: after
          ∧ Forall (fun k' => value_float py_float intent k' = None) before
          ∧ value_float py_float intent k = Some q)
  ∧ (_get_float py_float intent keys = None ↔
     Forall (fun k => value_float py_float intent k = None) keys).
Proof.
  induction keys as [|k keys [IHsome IHnone]].
  - split.
    + intros q. split; [discriminate|].
      intros (before & k & after & Heq & _). destruct before; discriminate.
    + split; [constructor|reflexivity].
  - rewrite get_float_cons.
    destruct (value_float py_float intent k) as [x|] eqn:Ek.
    + split.
      * intros q. split.
        -- intros [= <-]. exists [], k, keys. repeat split; [constructor|exact Ek].
        -- intros (before & k' & after & Heq & Hbefore & Hk').
           destruct before as [|b before]; cbn in Heq; injection Heq as <- ->.
           ++ congruence.
           ++ inversion Hbefore; congruence.
      * split; [discriminate|]. intros H. inversion H; congruence.
    + split.
      * intros q. rewrite IHsome. split.
        -- intros (before & k' & after & -> & Hbefore & Hk').
           exists (k :: before), k', after.
           repeat split; [constructor; assumption|exact Hk'].
        -- intros (before & k' & after & Heq & Hbefore & Hk').
           destruct before as [|b before]; cbn in Heq; injection Heq as <- ->.
           ++ congruence.
           ++ inversion Hbefore; subst. exists before, k', after.
              repeat split; assumption.
      * rewrite IHnone. split.
        -- intros H. constructor; assumption.
        -- intros H. inversion H; assumption.
Qed.

Lemma get_float_insert_other (py_float : string → option Q) (intent : Intent)
    (k : string) (v : pyval) (keys : list string) :
  k ∉ keys →
  _get_float py_float (<[k:=v]> intent) keys = _get_float py_float intent keys.
Proof.
  induction keys as [|a keys IH]; intros Hk; [reflexivity|].
  apply not_elem_of_cons in Hk as [Hne Hk].
  rewrite !get_float_cons. unfold value_float.
  rewrite lookup_insert_ne by exact Hne. rewrite (IH Hk). reflexivity.
Qed.

Lemma category_from_key_insert_other (intent : Intent) (k key : string)
    (v : pyval) :
  k ≠ key →
  category_from_key (<[k:=v]> intent) key = category_from_key intent key.
Proof.
  intros Hne. unfold category_from_key.
  rewrite lookup_insert_ne by exact Hne. reflexivity.
Qed.

(** X5: a key outside the alias lists and the three category keys has no
    effect on [filter_products], whatever value it holds; so a budget
    under [budget_usd] or bounds nested under [hard_constraints] are
    never applied. *)
Theorem filter_products_unread_keys (py_float : string → option Q)
    (to_numeric_str : string → option Q) (raw : DataFrame) (intent : Intent)
    (user_query : option string) (k : string) (v : pyval) :
  k ∉ read_keys →
  filter_products py_float to_numeric_str raw (<[k:=v]> intent) user_query
  = filter_products py_float to_numeric_str raw intent user_query.
Proof.
  unfold read_keys. rewrite !not_elem_of_app.
  intros (Hcat & Hbudget & Hram & Hstorage & Hbattery).
  apply not_elem_of_cons in Hcat as [H1 Hcat].
  apply not_elem_of_cons in Hcat as [H2 Hcat].
  apply not_elem_of_cons in Hcat as [H3 _].
  assert (Hdetect : detect_category (<[k:=v]> intent) user_query
                    = detect_category intent user_query).
  { unfold detect_category. cbn [omap list_omap].
    rewrite !category_from_key_insert_other by assumption. reflexivity. }
  unfold filter_products, numeric_filters, apply_bound.
  rewrite Hdetect.
  rewrite !get_float_insert_other by assumption. reflexivity.
Qed.

Lemma coerce_row_cell (to_numeric_str : string → option Q)
    (cols : list string) (r : Row) (col : string) :
  cell_at (coerce_row to_numeric_str cols r) col
  = if bool_decide (col ∈ cols)
    then coerce_cell to_numeric_str (cell_at r col)
    else cell_at r col.
Proof.
  unfold coerce_row. induction cols as [|c cols IH]; cbn [foldr].
  - reflexivity.
  - unfold cell_at at 1. destruct (decide (c = col)) as [->|Hne].
    + rewrite lookup_insert_eq. cbn [default from_option Datatypes.id].
      rewrite bool_decide_eq_true_2 by left. reflexivity.
    + rewrite lookup_insert_ne by exact Hne.
      change (default CNaN (?m !! col)) with (cell_at m col). rewrite IH.
      apply (f_equal (fun b : bool => if b then _ else _)).
      apply bool_decide_ext. rewrite elem_of_cons.
      split; [intros H; right; exact H|intros [E|H]; [congruence|exact H]].
Qed.

Lemma loaded_columns (raw : DataFrame) (col : string) :
  col ∈ List.filter (has_column raw) numeric_columns
  ↔ col ∈ numeric_columns ∧ col ∈ df_columns raw.
Proof.
  rewrite list_elem_of_In, filter_In, <- list_elem_of_In.
  unfold has_column. rewrite bool_decide_eq_true. reflexivity.
Qed.

Lemma Forall2_map_r {A B : Type} (P : A → B → Prop) (f : A → B)
    (l : list A) :
  (∀ x, P x (f x)) → Forall2 P l (map f l).
Proof. intros H. induction l; constructor; auto. Qed.

(** X6: loading the catalog leaves every cell outside the numeric columns
    as it was read, and turns every cell of a numeric column that is
    present into a number or NaN: numbers are kept, nothing stays a
    string. The column labels do not change. *)
Theorem catalog_load_numeric (to_numeric_str : string → option Q)
    (raw : DataFrame) :
  Forall2 (fun r0 r =>
             ∀ col,
               cell_at r col
               = if bool_decide (col ∈ numeric_columns ∧ col ∈ df_columns raw)
                 then coerce_cell to_numeric_str (cell_at r0 col)
                 else cell_at r0 col)
    (df_rows raw) (df_rows (_catalog_df to_numeric_str raw))
  ∧ (∀ c s, coerce_cell to_numeric_str c ≠ CStr s)
  ∧ (∀ q, coerce_cell to_numeric_str (CNum q) = CNum q)
  ∧ coerce_cell to_numeric_str CNaN = CNaN
  ∧ df_columns (_catalog_df to_numeric_str raw) = df_columns raw.
Proof.
  split; [|split; [|repeat split]].
  - cbn [_catalog_df df_rows]. apply Forall2_map_r. intros r0 col.
    rewrite coerce_row_cell.
    apply (f_equal (fun b : bool => if b then _ else _)).
    apply bool_decide_ext, loaded_columns.
  - intros c s. unfold coerce_cell.
    destruct (to_numeric to_numeric_str c); discriminate.
Qed.

Lemma is_category_loaded (to_numeric_str : string → option Q)
    (raw : DataFrame) (c : string) (r : Row) :
  is_category c
    (coerce_row to_numeric_str (List.filter (has_column raw) numeric_columns) r)
  = is_category c r.
Proof.
  unfold is_category. rewrite coerce_row_cell.
  rewrite bool_decide_eq_false_2; [reflexivity|].
  rewrite loaded_columns. intros [Hnum _].
  apply (bool_decide_pack _) in Hnum. vm_compute in Hnum. exact Hnum.
Qed.

Lemma filter_map_comm {A B : Type} (p : B → bool) (f : A → B) (l : list A) :
  List.filter p (map f l) = map f (List.filter (fun x => p (f x)) l).
Proof.
  induction l as [|x l IH]; [reflexivity|].
  cbn [map List.filter]. destruct (p (f x)); cbn [map]; congruence.
Qed.

Lemma filter_nil_iff {A : Type} (p : A → bool) (l : list A) :
  List.filter p l = [] ↔ Forall (fun x => p x = false) l.
Proof.
  induction l as [|x l IH]; cbn [List.filter].
  - split; [constructor|reflexivity].
  - destruct (p x) eqn:E.
    + split; [discriminate|]. intros H. inversion H; congruence.
    + rewrite IH. split; [intros H; constructor; assumption|].
      intros H. inversion H; assumption.
Qed.

Lemma is_category_false (c : string) (r : Row) :
  is_category c r = false ↔ cell_at r "category" ≠ CStr c.
Proof.
  unfold is_category. destruct (cell_at r "category") as [|q|s].
  - split; [discriminate|reflexivity].
  - split; [discriminate|reflexivity].
  - rewrite String.eqb_neq. split; [congruence|].
    intros H E. apply H. congruence.
Qed.

(** The rows of the resolved category after the load are the loaded rows
    of that category as read. *)
Lemma matching_rows (to_numeric_str : string → option Q) (raw : DataFrame)
    (c : string) :
  df_rows (select (is_category c) (_catalog_df to_numeric_str raw))
  = map (coerce_row to_numeric_str (List.filter (has_column raw) numeric_columns))
      (List.filter (is_category c) (df_rows raw)).
Proof.
  cbn [select _catalog_df df_rows]. rewrite filter_map_comm.
  f_equal. apply List.filter_ext. intros r. apply is_category_loaded.
Qed.

(** X7: on a catalog with a category column, [filter_products] returns
    no row exactly when the catalog has no row of the resolved category;
    bounds that nothing meets never empty the result. *)
Theorem filter_products_empty_iff (py_float : string → option Q)
    (to_numeric_str : string → option Q) (raw : DataFrame) (intent : Intent)
    (user_query : option string) (df : DataFrame) :
  has_column raw "category" = true →
  filter_products py_float to_numeric_str raw intent user_query = Ok df →
  (df_rows df = [] ↔
   Forall (fun r => cell_at r "category"
                    ≠ CStr (detect_category intent user_query))
     (df_rows raw)).
Proof.
  intros Hcol Hdf.
  destruct (filter_products_shape py_float to_numeric_str raw
              intent user_query Hcol) as (Hdf' & Hrows & _).
  rewrite Hdf in Hdf'. injection Hdf' as Heq.
  assert (Hsub : sublist (df_rows df)
                   (df_rows (select (is_category (detect_category intent user_query))
                               (_catalog_df to_numeric_str raw)))).
  { rewrite Heq. case_bool_decide; [reflexivity|].
    rewrite Hrows. apply filter_sublist. }
  assert (Hmatch :
    df_rows (select (is_category (detect_category intent user_query))
               (_catalog_df to_numeric_str raw)) = []
    ↔ Forall (fun r => cell_at r "category"
                       ≠ CStr (detect_category intent user_query))
        (df_rows raw)).
  { rewrite matching_rows. split.
    - intros H. apply map_eq_nil in H. apply filter_nil_iff in H.
      eapply Forall_impl; [exact H|]. intros r. apply is_category_false.
    - intros H.
      assert (Hnone : List.filter
                        (is_category (detect_category intent user_query))
                        (df_rows raw) = []).
      { apply filter_nil_iff. eapply Forall_impl; [exact H|].
        intros r. apply is_category_false. }
      rewrite Hnone. reflexivity. }
  rewrite <- Hmatch. case_bool_decide as Hfiltered; rewrite Heq.
  - reflexivity.
  - split; [contradiction|]. intros Hnil. rewrite Heq, Hnil in Hsub.
    apply sublist_nil_r in Hsub. contradiction.
Qed.


(** * Further properties of the feature normalizer *)

Lemma Forall2_map_both {A B C : Type} (P : B → C → Prop) (f : A → B)
    (g : A → C) (l : list A) :
  (∀ x, P (f x) (g x)) → Forall2 P (map f l) (map g l).
Proof. intros H. induction l; constructor; auto. Qed.

Lemma Forall2_replicate_both {A B : Type} (P : A → B → Prop) (n : nat)
    (x : A) (y : B) :
  P x y → Forall2 P (replicate n x) (replicate n y).
Proof. intros H. induction n; constructor; auto. Qed.

(** X9: the two directions mirror each other: entry by entry, the score
    with higher-is-better and the score with lower-is-better add up
    to 1. *)
Theorem normalize_direction_symmetry (to_numeric_str : string → option Q)
    (series : list cell) :
  Forall2 (fun a b => a + b == 1)
    (_normalize_series to_numeric_str series true)
    (_normalize_series to_numeric_str series false).
Proof.
  unfold _normalize_series.
  destruct (usable (map (to_numeric to_numeric_str) series)) as [|x xs].
  - apply Forall2_replicate_both. reflexivity.
  - destruct (isclose (fold_left Qmin xs x) (fold_left Qmax xs x)).
    + apply Forall2_replicate_both. reflexivity.
    + apply Forall2_map_both. intros [v|]; [ring|reflexivity].
Qed.

Lemma Qdiv_le_compat (a b c : Q) : 0 < c → a <= b → a / c <= b / c.
Proof.
  intros Hc Hab. apply Qle_shift_div_l; [exact Hc|].
  assert (a / c * c == a) as -> by (field; lra). exact Hab.
Qed.

(** X10: scores follow the values: of two usable entries of a column the
    one with the larger value never gets the smaller score when higher is
    better, and never the larger score when lower is better. *)
Theorem normalize_monotone (to_numeric_str : string → option Q)
    (series : list cell) (hib : bool) (i j : nat) (x y a b : Q) :
  map (to_numeric to_numeric_str) series !! i = Some (Some x) →
  map (to_numeric to_numeric_str) series !! j = Some (Some y) →
  _normalize_series to_numeric_str series hib !! i = Some a →
  _normalize_series to_numeric_str series hib !! j = Some b →
  x <= y →
  if hib then a <= b else b <= a.
Proof.
  intros Hi Hj Ha Hb Hxy.
  pose proof (normalize_series_cases to_numeric_str series hib) as H.
  cbv zeta in H.
  destruct (usable (map (to_numeric to_numeric_str) series)) as [|x0 xs].
  - rewrite H in Ha, Hb.
    apply lookup_replicate in Ha as [-> _], Hb as [-> _].
    destruct hib; apply Qle_refl.
  - destruct H as (lo & hi & _ & _ & _ & H). destruct (isclose lo hi).
    + rewrite H in Ha, Hb.
      apply lookup_replicate in Ha as [-> _], Hb as [-> _].
      destruct hib; apply Qle_refl.
    + destruct H as [Hlt H]. rewrite H in Ha, Hb.
      rewrite lookup_map, Hi in Ha. rewrite lookup_map, Hj in Hb.
      cbn in Ha, Hb. injection Ha as <-. injection Hb as <-.
      assert (Hdiv : (x - lo) / (hi - lo) <= (y - lo) / (hi - lo))
        by (apply Qdiv_le_compat; lra).
      destruct hib; lra.
Qed.





(** * Further properties of the weight resolver *)

Lemma bump_each_iter (hits : string → bool) (goals : list string) : ∀ x,
  bump_each hits goals x
  = Nat.iter (count_hits hits goals) (fun x => x + delta) x.
Proof.
  unfold bump_each, count_hits.
  induction goals as [|g goals IH]; intros x; [reflexivity|].
  cbn [fold_left List.filter]. rewrite IH. destruct (hits g); [|reflexivity].
  cbn [length]. rewrite Nat.iter_succ_r. reflexivity.
Qed.

Lemma count_hits_permutation (hits : string → bool) (l l' : list string) :
  l ≡ₚ l' → count_hits hits l = count_hits hits l'.
Proof.
  unfold count_hits. induction 1 as [|g l l' _ IH|g g' l|l l' l'' _ IH1 _ IH2].
  - reflexivity.
  - cbn [List.filter]. destruct (hits g); cbn [length]; congruence.
  - cbn [List.filter]. destruct (hits g), (hits g'); reflexivity.
  - congruence.
Qed.

Lemma bumped_weights_permutation (category : string) (l l' : list string) :
  l ≡ₚ l' → bumped_weights category l = bumped_weights category l'.
Proof.
  intros H.
  destruct (base_weights_four category) as (p & f & b & s & Hbase & _).
  unfold bumped_weights. rewrite Hbase, !fold_bump_goal_four.
  rewrite !bump_each_iter.
  rewrite !(count_hits_permutation _ l l' H). reflexivity.
Qed.

(** X12: the order of the goals does not matter: two intents whose goal
    lists are permutations of one another get the same weights. *)
Theorem compute_weights_goal_order (py_repr : pyval → string)
    (intent intent' : Intent) (category : string) (goals goals' : list string) :
  goal_strings py_repr intent = Ok goals →
  goal_strings py_repr intent' = Ok goals' →
  goals ≡ₚ goals' →
  _compute_weights py_repr intent category
  = _compute_weights py_repr intent' category.
Proof.
  intros H H' Hperm. unfold _compute_weights. rewrite H, H'.
  cbn [mbind result_bind].
  rewrite (bumped_weights_permutation category (map PyStr.lower goals)
             (map PyStr.lower goals')); [reflexivity|].
  apply Permutation_map. exact Hperm.
Qed.

Lemma base_weights_half (c : string) :
  ∃ p f b s, base_weights c = four p f b s
    ∧ 0 <= p ∧ 0 <= f ∧ 0 <= b ∧ 0 <= s ∧ p + f + b + s == 1
    ∧ p <= 1 # 2 ∧ f <= 1 # 2 ∧ b <= 1 # 2 ∧ s <= 1 # 2.
Proof.
  unfold base_weights.
  destruct (portable c); do 4 eexists; (split; [reflexivity|]);
    repeat split; try (vm_compute; congruence); reflexivity.
Qed.

Lemma bump_each_snoc (hits : string → bool) (goals : list string)
    (g : string) (x : Q) :
  bump_each hits (goals ++ [g]) x
  = if hits g then bump_each hits goals x + delta else bump_each hits goals x.
Proof. unfold bump_each. rewrite fold_left_app. reflexivity. Qed.

Lemma normalize_four_positive (p f b s : Q) :
  0 < p + f + b + s →
  normalize_weights (four p f b s)
  = four (p / sum_values (four p f b s)) (f / sum_values (four p f b s))
         (b / sum_values (four p f b s)) (s / sum_values (four p f b s)).
Proof.
  intros H. rewrite normalize_weights_four.
  destruct (Qle_bool (sum_values (four p f b s)) 0) eqn:E; [|reflexivity].
  apply Qle_bool_iff in E. rewrite sum_values_four in E. lra.
Qed.

Lemma share_grows (x t t' : Q) :
  0 < t → x < t → t' == t + delta → x / t < (x + delta) / t'.
Proof.
  intros Ht Hx Ht'. assert (Hd : 0 < delta) by reflexivity.
  rewrite Ht'. apply Qlt_shift_div_l; [lra|].
  set (u := x / t).
  assert (Hu : u * t == x) by (unfold u; field; lra).
  assert (Hu1 : u < 1) by (unfold u; apply Qlt_shift_div_r; lra).
  nra.
Qed.

Lemma share_shrinks (y t t' : Q) :
  0 < t → 0 <= y → t' == t + delta → y / t' <= y / t.
Proof.
  intros Ht Hy Ht'. assert (Hd : 0 < delta) by reflexivity.
  rewrite Ht'. apply Qle_shift_div_l; [exact Ht|].
  set (v := y / (t + delta)).
  assert (Hv : v * (t + delta) == y) by (unfold v; field; lra).
  assert (Hv0 : 0 <= v) by (unfold v; apply Qle_shift_div_l; lra).
  nra.
Qed.

(** X13: a goal that matches the keywords of exactly one criterion
    strictly raises the resolved weight of that criterion and does not
    raise the weight of any other, whatever goals came before it. *)
Theorem single_criterion_goal (category : string) (before : list string)
    (g c : string) :
  c ∈ criteria →
  hits c g = true →
  (∀ c', c' ∈ criteria → c' ≠ c → hits c' g = false) →
  let w0 := normalize_weights (bumped_weights category before) in
  let w1 := normalize_weights (bumped_weights category (before ++ [g])) in
  weight_of c w0 < weight_of c w1
  ∧ ∀ c', c' ∈ criteria → c' ≠ c → weight_of c' w1 <= weight_of c' w0.
Proof.
  intros Hc Hhit Hothers. cbv zeta.
  destruct (base_weights_half category)
    as (p & f & b & s & Hbase & Hp & Hf & Hb & Hs & Hsum & Hp2 & Hf2 & Hb2 & Hs2).
  unfold bumped_weights. rewrite Hbase, !fold_bump_goal_four.
  rewrite !bump_each_snoc.
  pose proof (bump_each_ge hits_price before p).
  pose proof (bump_each_ge hits_performance before f).
  pose proof (bump_each_ge hits_battery before b).
  pose proof (bump_each_ge hits_screen before s).
  set (P := bump_each hits_price before p) in *.
  set (F := bump_each hits_performance before f) in *.
  set (B := bump_each hits_battery before b) in *.
  set (S := bump_each hits_screen before s) in *.
  assert (Hd : 0 < delta) by reflexivity.
  pose proof (sum_values_four P F B S) as HT.
  assert (Hin : ∀ k, k ∈ criteria → k = "price"%string
                ∨ k = "performance"%string ∨ k = "battery"%string
                ∨ k = "screen"%string).
  { intros k Hk. unfold criteria in Hk.
    repeat (apply elem_of_cons in Hk as [Hk|Hk]; [tauto|]). inversion Hk. }
  assert (Hmem : ∀ k, k = "price"%string ∨ k = "performance"%string
                 ∨ k = "battery"%string ∨ k = "screen"%string → k ∈ criteria).
  { intros k [->|[->|[->| ->]]]; apply list_elem_of_In; cbn; auto 10. }
  destruct (Hin c Hc) as [->|[->|[->| ->]]]; clear Hc.
  - assert (E1 : hits_price g = true) by exact Hhit.
    assert (E2 : hits_performance g = false)
      by (apply (Hothers "performance"%string); [apply Hmem; tauto|discriminate]).
    assert (E3 : hits_battery g = false)
      by (apply (Hothers "battery"%string); [apply Hmem; tauto|discriminate]).
    assert (E4 : hits_screen g = false)
      by (apply (Hothers "screen"%string); [apply Hmem; tauto|discriminate]).
    rewrite E1, E2, E3, E4.
    pose proof (sum_values_four (P + delta) F B S) as HT'.
    rewrite !normalize_four_positive by lra.
    split.
    + cbn [weight_of four String.eqb Ascii.eqb Bool.eqb].
      apply share_grows; lra.
    + intros c' Hc' Hne.
      destruct (Hin c' Hc') as [->|[->|[->| ->]]]; [congruence| | |];
        cbn [weight_of four String.eqb Ascii.eqb Bool.eqb];
        apply share_shrinks; lra.
  - assert (E1 : hits_price g = false)
      by (apply (Hothers "price"%string); [apply Hmem; tauto|discriminate]).
    assert (E2 : hits_performance g = true) by exact Hhit.
    assert (E3 : hits_battery g = false)
      by (apply (Hothers "battery"%string); [apply Hmem; tauto|discriminate]).
    assert (E4 : hits_screen g = false)
      by (apply (Hothers "screen"%string); [apply Hmem; tauto|discriminate]).
    rewrite E1, E2, E3, E4.
    pose proof (sum_values_four P (F + delta) B S) as HT'.
    rewrite !normalize_four_positive by lra.
    split.
    + cbn [weight_of four String.eqb Ascii.eqb Bool.eqb].
      apply share_grows; lra.
    + intros c' Hc' Hne.
      destruct (Hin c' Hc') as [->|[->|[->| ->]]]; [|congruence| |];
        cbn [weight_of four String.eqb Ascii.eqb Bool.eqb];
        apply share_shrinks; lra.
  - assert (E1 : hits_price g = false)
      by (apply (Hothers "price"%string); [apply Hmem; tauto|discriminate]).
    assert (E2 : hits_performance g = false)
      by (apply (Hothers "performance"%string); [apply Hmem; tauto|discriminate]).
    assert (E3 : hits_battery g = true) by exact Hhit.
    assert (E4 : hits_screen g = false)
      by (apply (Hothers "screen"%string); [apply Hmem; tauto|discriminate]).
    rewrite E1, E2, E3, E4.
    pose proof (sum_values_four P F (B + delta) S) as HT'.
    rewrite !normalize_four_positive by lra.
    split.
    + cbn [weight_of four String.eqb Ascii.eqb Bool.eqb].
      apply share_grows; lra.
    + intros c' Hc' Hne.
      destruct (Hin c' Hc') as [->|[->|[->| ->]]]; [| |congruence|];
        cbn [weight_of four String.eqb Ascii.eqb Bool.eqb];
        apply share_shrinks; lra.
  - assert (E1 : hits_price g = false)
      by (apply (Hothers "price"%string); [apply Hmem; tauto|discriminate]).
    assert (E2 : hits_performance g = false)
      by (apply (Hothers "performance"%string); [apply Hmem; tauto|discriminate]).
    assert (E3 : hits_battery g = false)
      by (apply (Hothers "battery"%string); [apply Hmem; tauto|discriminate]).
    assert (E4 : hits_screen g = true) by exact Hhit.
    rewrite E1, E2, E3, E4.
    pose proof (sum_values_four P F B (S + delta)) as HT'.
    rewrite !normalize_four_positive by lra.
    split.
    + cbn [weight_of four String.eqb Ascii.eqb Bool.eqb].
      apply share_grows; lra.
    + intros c' Hc' Hne.
      destruct (Hin c' Hc') as [->|[->|[->| ->]]]; [| | |congruence];
        cbn [weight_of four String.eqb Ascii.eqb Bool.eqb];
        apply share_shrinks; lra.
Qed.

Lemma goal_strings_insert_other (py_repr : pyval → string) (intent : Intent)
    (k : string) (v : pyval) :
  k ≠ "primary_goals"%string →
  goal_strings py_repr (<[k:=v]> intent) = goal_strings py_repr intent.
Proof.
  intros Hne. unfold goal_strings, goals_raw.
  rewrite lookup_insert_ne by exact Hne. reflexivity.
Qed.

(** X14: [_compute_weights] raises, and then a TypeError, exactly when
    [primary_goals] is a number other than zero or the boolean true; an
    absent, null or otherwise falsy field counts as no goals and gives
    the normalized base weights of the category. *)
Theorem compute_weights_raises_iff (py_repr : pyval → string)
    (intent : Intent) (category : string) :
  (∀ e, _compute_weights py_repr intent category = Raise e →
        e = TypeError
        ∧ ((∃ q, intent !! "primary_goals" = Some (PNum q) ∧ ¬ q == 0)
           ∨ intent !! "primary_goals" = Some (PBool true)))
  ∧ (∀ q, intent !! "primary_goals" = Some (PNum q) → ¬ q == 0 →
          _compute_weights py_repr intent category = Raise TypeError)
  ∧ (intent !! "primary_goals" = Some (PBool true) →
     _compute_weights py_repr intent category = Raise TypeError)
  ∧ (match intent !! "primary_goals" with
     | Some v => truthy v = false
     | None => True
     end →
     _compute_weights py_repr intent category
     = Ok (normalize_weights (base_weights category))).
Proof.
  unfold _compute_weights, goal_strings, goals_raw.
  destruct (intent !! "primary_goals") as [[|b|q|s|l|d]|] eqn:E;
    cbn [truthy];
    [ | destruct b | destruct (Qeq_bool q 0) eqn:Hq
      | destruct (PyStr.nonempty s) | destruct l | destruct d | ];
    cbn; repeat split; intros; simplify_eq;
    try reflexivity; try discriminate;
    try (apply Qeq_bool_iff in Hq; contradiction);
    try (split; [reflexivity|]);
    try (right; reflexivity);
    try (left; eexists; split; [reflexivity|apply Qeq_bool_neq; assumption]).
Qed.

(** * Further properties of the scorer *)

Lemma py_round_monotone (x y : Q) : x <= y → (py_round x <= py_round y)%Z.
Proof.
  intros Hxy. pose proof (Qfloor_resp_le _ _ Hxy) as Hf. unfold py_round.
  destruct (Z.eq_dec (Qfloor x) (Qfloor y)) as [E|E].
  - rewrite E.
    destruct (Qcompare (x - inject_Z (Qfloor y)) (1 # 2)) eqn:Cx;
      destruct (Qcompare (y - inject_Z (Qfloor y)) (1 # 2)) eqn:Cy;
      destruct (Z.even (Qfloor y)); try lia; exfalso;
      first [apply Qeq_alt in Cx | apply Qlt_alt in Cx | apply Qgt_alt in Cx];
      first [apply Qeq_alt in Cy | apply Qlt_alt in Cy | apply Qgt_alt in Cy];
      lra.
  - destruct (Qcompare (x - inject_Z (Qfloor x)) (1 # 2));
      destruct (Qcompare (y - inject_Z (Qfloor y)) (1 # 2));
      destruct (Z.even (Qfloor x)); destruct (Z.even (Qfloor y)); lia.
Qed.

Lemma py_round_proper (x y : Q) : x == y → py_round x = py_round y.
Proof.
  intros H. apply Z.le_antisymm; apply py_round_monotone; rewrite H;
    apply Qle_refl.
Qed.

Lemma or_else_truthy (a : option cell) (b : cell) :
  cell_truthy b = true → cell_truthy (or_else a b) = true.
Proof.
  intros Hb. destruct a as [c|]; cbn [or_else]; [|exact Hb].
  destruct (cell_truthy c) eqn:E; assumption.
Qed.

Lemma normalize_single (to_numeric_str : string → option Q) (c : cell)
    (hib : bool) :
  _normalize_series to_numeric_str [c] hib = [neutral].
Proof.
  unfold _normalize_series. cbn [map usable omap list_omap].
  destruct (to_numeric to_numeric_str c) as [x|]; cbn; [|reflexivity].
  rewrite (isclose_equal x x (Qeq_refl x)). reflexivity.
Qed.

Section ScorerExtras.

Context (py_repr : pyval → string) (to_numeric_str : string → option Q).
Context (argsort : list Q → list nat).
Context (World : Type) (chat_llm : string → World → (string + string) * World).
Context (render_prompt : string → string → Row → Q → Z → string).

(** X15: of the intent [rank_products] reads [primary_goals] only: a
    change under any other key (the category, a budget, a bound) changes
    neither the ranking nor the calls to the service. *)
Theorem rank_products_reads_goals_only (intent : Intent)
    (products : option DataFrame) (w : World) (k : string) (v : pyval) :
  k ≠ "primary_goals"%string →
  rank_products py_repr to_numeric_str argsort World chat_llm render_prompt
    (<[k:=v]> intent) products w
  = rank_products py_repr to_numeric_str argsort World chat_llm render_prompt
      intent products w.
Proof.
  intros Hne. unfold rank_products, prepare, _compute_weights.
  rewrite (goal_strings_insert_other py_repr intent k v Hne). reflexivity.
Qed.

Lemma column_score_single (df : DataFrame) (r : Row) (col : string)
    (hib : bool) :
  df_rows df = [r] → column_score to_numeric_str df col hib = [neutral].
Proof.
  intros Hrows. unfold column_score, neutral_series, column. rewrite Hrows.
  destruct (has_column df col); [apply normalize_single|reflexivity].
Qed.

Lemma score_continuous_single (df : DataFrame) (r : Row) (category : string)
    (w : Weights) :
  df_rows df = [r] →
  weight_of "price" w + weight_of "performance" w + weight_of "battery" w
  + weight_of "screen" w == 1 →
  ∃ s, score_continuous to_numeric_str df category w = [s] ∧ s == 1 # 2.
Proof.
  intros Hrows Hsum.
  unfold score_continuous, price_score, battery_score, screen_score,
    performance_score, neutral_series.
  rewrite !(column_score_single df r _ _ Hrows), Hrows.
  destruct (portable category); cbn; eexists; (split; [reflexivity|]);
    unfold neutral; lra.
Qed.

(** X16: a product that is ranked alone always gets the score 50: with
    one row every column is neutral. *)
Theorem single_product_score (intent : Intent) (df : DataFrame) (r : Row)
    (w : World) (keys : list Q) :
  df_empty df = false →
  df_rows df = [r] →
  continuous_scores py_repr to_numeric_str intent df = Ok keys →
  is_argsort (rev keys) (argsort (rev keys)) = true →
  ∃ ranking item,
    fst (rank_products py_repr to_numeric_str argsort World chat_llm
           render_prompt intent (Some df) w) = Ok ranking
    ∧ results ranking = [item]
    ∧ id item = row_get df r "id"
    ∧ score item = 50%Z.
Proof.
  intros Hne Hrows Hkeys Hsort.
  destruct (prepare_ok py_repr to_numeric_str argsort intent df keys Hkeys Hsort)
    as (category & wts & df_sorted & goals & Hprep & _ & Hw & -> & Hperm & _).
  pose proof (compute_weights_convex py_repr intent category wts Hw)
    as (_ & _ & _ & _ & Hsum).
  destruct (score_continuous_single df r category wts Hrows Hsum)
    as (s & Hs & Hhalf).
  rewrite Hs, Hrows in Hperm. cbn in Hperm.
  apply Permutation_singleton_r in Hperm. subst df_sorted.
  pose proof (rank_products_prepared py_repr to_numeric_str argsort World
                chat_llm render_prompt intent df w _ _ _ _ Hne Hprep) as Hrank.
  pose proof (explain_rows_items World chat_llm render_prompt df [(r, s)]
                category goals w) as Hitems.
  destruct (fst (explain_rows World chat_llm render_prompt df [(r, s)]
                   category goals w)) as [|item items];
    [inversion Hitems|].
  inversion Hitems as [|? ? ? ? [e He] Hrest]; subst. inversion Hrest; subst.
  eexists. exists (make_item df r s e).
  split; [exact Hrank|]. split; [reflexivity|]. split; [reflexivity|].
  cbn [score make_item].
  rewrite (py_round_proper (s * 100) 50) by (rewrite Hhalf; reflexivity).
  reflexivity.
Qed.

Lemma items_descending (df : DataFrame) (items : list Item)
    (rows : list (Row * Q)) :
  Forall2 (fun item rs => ∃ e, item = make_item df (fst rs) (snd rs) e)
    items rows →
  StronglySorted no_less (map snd rows) →
  StronglySorted (fun a b => (score b <= score a)%Z) items.
Proof.
  induction 1 as [|item rs items rows [e ->] Hrest IH]; intros Hsorted;
    [constructor|].
  cbn [map] in Hsorted. apply StronglySorted_inv in Hsorted as [Htail Hhead].
  constructor; [apply IH; exact Htail|].
  clear IH Htail. induction Hrest as [|item' rs' items rows [e' ->] _ IH];
    [constructor|].
  cbn [map] in Hhead. inversion Hhead as [|? ? Hle Hhead']; subst.
  constructor; [|apply IH; exact Hhead'].
  cbn [score make_item]. apply py_round_monotone.
  unfold no_less in Hle. nra.
Qed.

(** X17: the displayed scores descend too: in the ranking no entry has a
    higher integer score than an entry before it. *)
Theorem displayed_scores_descend (intent : Intent) (df : DataFrame)
    (w : World) (keys : list Q) :
  df_empty df = false →
  continuous_scores py_repr to_numeric_str intent df = Ok keys →
  is_argsort (rev keys) (argsort (rev keys)) = true →
  ∃ ranking,
    fst (rank_products py_repr to_numeric_str argsort World chat_llm
           render_prompt intent (Some df) w) = Ok ranking
    ∧ StronglySorted (fun a b => (score b <= score a)%Z) (results ranking).
Proof.
  intros Hne Hkeys Hsort.
  destruct (prepare_ok py_repr to_numeric_str argsort intent df keys Hkeys Hsort)
    as (category & wts & df_sorted & goals & Hprep & _ & _ & _ & _ & Hsorted).
  eexists.
  split; [exact (rank_products_prepared py_repr to_numeric_str argsort World
                   chat_llm render_prompt intent df w _ _ _ _ Hne Hprep)|].
  cbn [results]. eapply items_descending; [apply explain_rows_items|exact Hsorted].
Qed.

(** X18: the title of an entry is never empty or zero: the title cell is
    used if it is truthy, else the model cell if that is, else the text
    "Unknown product". A missing title is a NaN, which is truthy, and is
    passed on as the title. *)
Theorem titles_truthy (intent : Intent) (products : option DataFrame)
    (w : World) (ranking : Ranking) :
  fst (rank_products py_repr to_numeric_str argsort World chat_llm
         render_prompt intent products w) = Ok ranking →
  Forall (fun item => cell_truthy (title item) = true) (results ranking)
  ∧ (∀ df row s e,
       row_get df row "title" = Some CNaN →
       title (make_item df row s e) = CNaN).
Proof.
  intros H. split.
  - unfold rank_products in H.
    destruct products as [df|]; [|injection H as <-; constructor].
    destruct (df_empty df); [injection H as <-; constructor|].
    destruct (prepare py_repr to_numeric_str argsort intent df)
      as [[[[category wts] df_sorted] goals]|e]; [|discriminate].
    pose proof (explain_rows_items World chat_llm render_prompt df df_sorted
                  category goals w) as Hitems.
    destruct (explain_rows World chat_llm render_prompt df df_sorted category
                goals w) as [items w'].
    cbn [fst] in *. injection H as <-. cbn [results].
    induction Hitems as [|item rs items rows [e ->] _ IH]; constructor;
      [|exact IH].
    cbn [title make_item]. apply or_else_truthy, or_else_truthy. reflexivity.
  - intros df row s e Htitle. cbn [title make_item]. rewrite Htitle.
    reflexivity.
Qed.

End ScorerExtras.

(** * Properties of the client *)

Lemma filter_nonempty_drop (parts1 parts2 : list string) :
  List.filter PyStr.nonempty (parts1 ++ EmptyString :: parts2)
  = List.filter PyStr.nonempty (parts1 ++ parts2).
Proof. rewrite !List.filter_app. reflexivity. Qed.

(** X21: [chat_llm] without a prompt part raises its ValueError and makes
    no call; with one part it is the chat completion on exactly that
    text, an exception passing on its message; and an empty part among
    others changes nothing. *)
Theorem chat_llm_parts (World : Type)
    (completion : string → World → (string + string) * World) :
  (∀ w, LlmClient.chat_llm World completion [] w = (inr ValueError, w))
  ∧ (∀ prompt w,
       LlmClient.chat_llm_one World completion prompt w = completion prompt w)
  ∧ (∀ parts1 parts2 w,
       parts1 ++ parts2 ≠ [] →
       LlmClient.chat_llm World completion (parts1 ++ EmptyString :: parts2) w
       = LlmClient.chat_llm World completion (parts1 ++ parts2) w).
Proof.
  split; [reflexivity|]. split.
  - intros prompt w. unfold LlmClient.chat_llm_one, LlmClient.chat_llm.
    assert (E : PyStr.join blank_line (List.filter PyStr.nonempty [prompt])
                = prompt) by (destruct prompt; reflexivity).
    rewrite E. destruct (completion prompt w) as [[content|msg] w'];
      reflexivity.
  - intros parts1 parts2 w Hne. unfold LlmClient.chat_llm.
    rewrite filter_nonempty_drop.
    destruct (parts1 ++ parts2) eqn:E; [contradiction|].
    destruct parts1; reflexivity.
Qed.

(** * Properties of the pipeline *)

Lemma known_categories_fixed (c : string) :
  c ∈ known_categories → PyStr.lower (PyStr.strip c) = c.
Proof.
  unfold known_categories. intros H.
  repeat (apply elem_of_cons in H as [->|H]; [reflexivity|]). inversion H.
Qed.

Lemma normalize_weights_keys (w : Weights) :
  map fst (normalize_weights w) = map fst w.
Proof.
  unfold normalize_weights. destruct (Qle_bool (sum_values w) 0);
    rewrite map_map; reflexivity.
Qed.

Lemma take_rows_raises {A : Type} (l : list A) (idx : list nat) (e : exn) :
  take_rows l idx = Raise e → e = IndexError.
Proof.
  unfold take_rows. destruct (mapM _ idx); [discriminate|]. congruence.
Qed.

Section PipelineProperties.

Context (py_repr : pyval → string) (py_float : string → option Q).
Context (to_numeric_str : string → option Q) (argsort : list Q → list nat).
Context (World : Type).
Context (completion : string → World → (string + string) * World).
Context (render_prompt : string → string → Row → Q → Z → string).
Context (json_loads : string → option pyval).
Context (INTENT_SYSTEM_PROMPT : string) (raw_catalog : DataFrame).

Lemma sort_values_raises (rows : list (Row * Q)) (e : exn) :
  sort_values argsort rows = Raise e → e = IndexError.
Proof.
  unfold sort_values, nargsort.
  destruct (take_rows (rev (seq 0 (length (map snd rows)))) _) as [idx|e']
    eqn:E1; cbn.
  - apply take_rows_raises.
  - intros [= <-]. exact (take_rows_raises _ _ _ E1).
Qed.

Lemma compute_weights_keys (intent : Intent) (category : string) (w : Weights) :
  _compute_weights py_repr intent category = Ok w → map fst w = criteria.
Proof.
  intros H.
  apply (compute_weights_goal_strings py_repr) in H as (goals & _ & ->).
  rewrite normalize_weights_keys.
  destruct (bumped_weights_four category (map PyStr.lower goals))
    as (p & f & b & s & _ & -> & _).
  reflexivity.
Qed.

(** What a returned ranking of a frame tells about the run. *)
Lemma rank_products_returns (chat : string → World → (string + string) * World)
    (intent : Intent) (df : DataFrame) (w : World) (ranking : Ranking) :
  fst (rank_products py_repr to_numeric_str argsort World chat render_prompt
         intent (Some df) w) = Ok ranking →
  (df_empty df = true ∧ ranking = empty_ranking)
  ∨ (df_empty df = false
     ∧ ∃ c, first_category df = Ok c
         ∧ category ranking = Some c
         ∧ _compute_weights py_repr intent c = Ok (weights ranking)).
Proof.
  unfold rank_products. destruct (df_empty df); [intros [= <-]; left; auto|].
  unfold prepare.
  destruct (first_category df) as [c|e]; cbn; [|discriminate].
  destruct (_compute_weights py_repr intent c) as [wts|e] eqn:Hw; cbn;
    [|discriminate].
  destruct (sort_values argsort _) as [sorted|e]; cbn; [|discriminate].
  destruct (goal_strings py_repr intent) as [goals|e]; cbn; [|discriminate].
  destruct (explain_rows World chat render_prompt df sorted c goals w)
    as [items w'].
  intros [= <-]. right. split; [reflexivity|]. exists c.
  split; [reflexivity|]. split; [reflexivity|exact Hw].
Qed.

(** X19: whenever [run_pipeline] returns, the intent it returns is a
    dict, the products are what [filter_products] gives for it and the
    query, every product has the category resolved from the intent and
    the query, an empty product set comes with the empty ranking, and a
    ranking of a non-empty product set carries that same category and a
    weight for each of the four criteria. *)
Theorem run_pipeline_consistent (user_query : string) (w w' : World)
    (intent : pyval) (products : DataFrame) (ranking : Ranking) :
  Orchestrator.run_pipeline py_repr py_float to_numeric_str argsort World
    completion render_prompt json_loads INTENT_SYSTEM_PROMPT raw_catalog
    user_query w
  = (inl (intent, products, ranking), w') →
  ∃ d,
    as_intent intent = Ok d
    ∧ filter_products py_float to_numeric_str raw_catalog d (Some user_query)
      = Ok products
    ∧ Forall (fun r => cell_at r "category"
                       = CStr (detect_category d (Some user_query)))
        (df_rows products)
    ∧ (df_rows products = [] → ranking = empty_ranking)
    ∧ (df_rows products ≠ [] →
       category ranking = Some (detect_category d (Some user_query))
       ∧ map fst (weights ranking) = criteria).
Proof.
  unfold Orchestrator.run_pipeline. intros H.
  destruct (Orchestrator.extract_intent World completion json_loads
              INTENT_SYSTEM_PROMPT user_query w) as [[iv|f] w1];
    [|discriminate].
  unfold mbind, result_bind in H.
  destruct (as_intent iv) as [d|e] eqn:Ed; [|discriminate].
  destruct (filter_products py_float to_numeric_str raw_catalog d
              (Some user_query)) as [df|e] eqn:Edf; [|discriminate].
  destruct (rank_products py_repr to_numeric_str argsort World
              (LlmClient.chat_llm_one World completion) render_prompt d
              (Some df) w1) as [[rk|e] w2] eqn:Erank; [|discriminate].
  injection H as -> -> -> ->.
  exists d. split; [exact Ed|]. split; [exact Edf|].
  assert (Hcol : has_column raw_catalog "category" = true).
  { destruct (has_column raw_catalog "category") eqn:Hc; [reflexivity|].
    unfold filter_products in Edf.
    change (has_column (_catalog_df to_numeric_str raw_catalog) "category")
      with (has_column raw_catalog "category") in Edf.
    rewrite Hc in Edf. discriminate. }
  destruct (filter_products_shape py_float to_numeric_str raw_catalog d
              (Some user_query) Hcol) as (Hshape & Hrows & Hcols).
  rewrite Edf in Hshape. injection Hshape as Hshape.
  assert (Hall : Forall (fun r => cell_at r "category"
                                  = CStr (detect_category d (Some user_query)))
                   (df_rows products)).
  { rewrite Hshape. case_bool_decide; [apply select_category_rows|].
    rewrite Hrows. apply Forall_forall. intros r Hr.
    apply list_elem_of_In, filter_In in Hr as [Hr _].
    pose proof (select_category_rows (detect_category d (Some user_query))
                  (_catalog_df to_numeric_str raw_catalog)) as Hsel.
    rewrite Forall_forall in Hsel. apply Hsel, list_elem_of_In, Hr. }
  split; [exact Hall|].
  assert (Hrank : fst (rank_products py_repr to_numeric_str argsort World
                         (LlmClient.chat_llm_one World completion)
                         render_prompt d (Some products) w1) = Ok ranking)
    by (rewrite Erank; reflexivity).
  apply rank_products_returns in Hrank.
  assert (Hnonempty : df_columns products ≠ []).
  { rewrite Hshape. apply bool_decide_eq_true in Hcol.
    case_bool_decide; [|rewrite Hcols];
      cbn [select df_columns _catalog_df];
      destruct (df_columns raw_catalog); [inversion Hcol|discriminate
                                         |inversion Hcol|discriminate]. }
  split.
  - intros Hnil. destruct Hrank as [[_ ->]|[Hne _]]; [reflexivity|].
    unfold df_empty in Hne. rewrite Hnil in Hne.
    destruct (df_columns products); discriminate.
  - intros Hrows'. destruct Hrank as [[He _]|(_ & c & Hc & Hcat & Hw)].
    + unfold df_empty in He.
      destruct (df_columns products); [contradiction|].
      destruct (df_rows products); [contradiction|discriminate].
    + split; [|exact (compute_weights_keys d c _ Hw)].
      rewrite Hcat. f_equal.
      assert (Hfirst : first_category products
                       = Ok (PyStr.lower (PyStr.strip
                                (detect_category d (Some user_query))))).
      { unfold first_category, has_column, column.
        assert (Hc' : df_columns products = df_columns raw_catalog).
        { rewrite Hshape. case_bool_decide; [reflexivity|exact Hcols]. }
        rewrite Hc'. unfold has_column in Hcol. rewrite Hcol.
        destruct (df_rows products) as [|r rows]; [contradiction|].
        inversion Hall as [|? ? Hr _]; subst. cbn [map]. rewrite Hr.
        reflexivity. }
      rewrite Hfirst in Hc. injection Hc as <-.
      apply known_categories_fixed, detect_category_in_table.
Qed.

Lemma first_category_select (df : DataFrame) (c : string) :
  has_column df "category" = true →
  df_rows (select (is_category c) df) ≠ [] →
  first_category (select (is_category c) df)
  = Ok (PyStr.lower (PyStr.strip c)).
Proof.
  intros Hcol Hrows. pose proof (select_category_rows c df) as Hall.
  unfold first_category, column.
  change (has_column (select (is_category c) df) "category")
    with (has_column df "category").
  rewrite Hcol.
  destruct (df_rows (select (is_category c) df)) as [|r rows];
    [contradiction|].
  inversion Hall as [|? ? Hr _]; subst. cbn [map]. rewrite Hr. reflexivity.
Qed.

(** X20: when the answer of the model to the intent prompt is no JSON,
    the pipeline recommends laptops whatever the query says: the intent
    is the fallback record, the products are all rows of category laptop
    with no bound applied, and a ranking that is not empty has the
    category laptop and the normalized base weights. The run can then
    only fail on an index array out of range. *)
Theorem pipeline_fallback_laptops (user_query raw : string) (w w1 : World) :
  LlmClient.chat_llm World completion [INTENT_SYSTEM_PROMPT; user_query] w
  = (inl raw, w1) →
  json_loads raw = None →
  has_column raw_catalog "category" = true →
  let laptops :=
    select (is_category "laptop") (_catalog_df to_numeric_str raw_catalog) in
  match
    fst (Orchestrator.run_pipeline py_repr py_float to_numeric_str argsort
           World completion render_prompt json_loads INTENT_SYSTEM_PROMPT
           raw_catalog user_query w)
  with
  | inl (intent, products, ranking) =>
      intent = fallback_intent user_query
      ∧ products = laptops
      ∧ (ranking = empty_ranking
         ∨ (category ranking = Some "laptop"%string
            ∧ weights ranking = normalize_weights (base_weights "laptop")))
  | inr (Raised e) => e = IndexError
  | inr _ => False
  end.
Proof.
  intros Hchat Hjson Hcol. cbv zeta.
  unfold Orchestrator.run_pipeline, Orchestrator.extract_intent.
  rewrite Hchat, Hjson. cbn [as_intent fallback_intent].
  set (d := list_to_map _).
  assert (Hdetect : detect_category d (Some user_query) = "laptop"%string)
    by reflexivity.
  assert (Hbounds : ∀ df, numeric_filters py_float d df = df)
    by (intros df; reflexivity).
  assert (Hgoals : goal_strings py_repr d = Ok []) by reflexivity.
  destruct (filter_products_shape py_float to_numeric_str raw_catalog d
              (Some user_query) Hcol) as (Hshape & _ & _).
  rewrite Hdetect, Hbounds in Hshape.
  assert (Hfilter :
    filter_products py_float to_numeric_str raw_catalog d (Some user_query)
    = Ok (select (is_category "laptop")
            (_catalog_df to_numeric_str raw_catalog))).
  { rewrite Hshape. destruct (bool_decide _); reflexivity. }
  unfold mbind, result_bind. rewrite Hfilter.
  set (laptops := select (is_category "laptop")
                    (_catalog_df to_numeric_str raw_catalog)).
  unfold rank_products.
  destruct (df_empty laptops) eqn:Hempty.
  { cbn [fst]. split; [reflexivity|]. split; [reflexivity|]. left. reflexivity. }
  assert (Hrows : df_rows laptops ≠ []).
  { intros Hnil. unfold df_empty in Hempty. rewrite Hnil in Hempty.
    destruct (df_columns laptops); discriminate. }
  assert (Hfirst : first_category laptops = Ok "laptop"%string)
    by exact (first_category_select (_catalog_df to_numeric_str raw_catalog)
                "laptop" Hcol Hrows).
  unfold prepare, _compute_weights. rewrite Hfirst.
  unfold mbind, result_bind. rewrite Hgoals. unfold mbind, result_bind.
  destruct (sort_values argsort _) as [sorted|e] eqn:Hsort.
  - destruct (explain_rows World (LlmClient.chat_llm_one World completion)
                render_prompt laptops sorted _ [] w1) as [items w2].
    cbn [fst]. split; [reflexivity|]. split; [reflexivity|]. right.
    split; reflexivity.
  - cbn [fst]. exact (sort_values_raises _ _ Hsort).
Qed.

End PipelineProperties.

(** * The further properties at concrete inputs *)

(** X2 at a category written with capitals and blanks, against a query
    that names another device. *)
Lemma detect_category_intent_first_witness :
  intent_spaced !! "category" = Some (PStr " Laptop ")
  ∧ PyStr.lower (PyStr.strip " Laptop ") ∈ known_categories
  ∧ detect_category intent_spaced (Some "a phone with a big display"%string)
    = PyStr.lower (PyStr.strip " Laptop ").
Proof.
  assert (H1 : intent_spaced !! "category" = Some (PStr " Laptop "))
    by reflexivity.
  assert (H2 : PyStr.lower (PyStr.strip " Laptop ") ∈ known_categories)
    by (vm_compute; left).
  split; [exact H1|]. split; [exact H2|].
  exact (detect_category_intent_first intent_spaced
           (Some "a phone with a big display"%string) " Laptop " H1 H2).
Defined.

(** X5 at the key [budget_usd]. *)
Lemma filter_products_unread_keys_witness :
  ("budget_usd"%string ∉ read_keys)
  ∧ filter_products decimal_float decimal_float two_laptops
      (<["budget_usd"%string := PNum 100]> intent_alias_keys) None
    = filter_products decimal_float decimal_float two_laptops
        intent_alias_keys None.
Proof.
  assert (H : "budget_usd"%string ∉ read_keys).
  { intros Hin. apply (bool_decide_pack _) in Hin. vm_compute in Hin.
    exact Hin. }
  split; [exact H|].
  exact (filter_products_unread_keys decimal_float decimal_float two_laptops
           intent_alias_keys None "budget_usd" (PNum 100) H).
Defined.

(** X7 at a budget nothing meets: the result is not empty, and the
    catalog has laptops. *)
Lemma filter_products_empty_iff_witness :
  has_column two_laptops "category" = true
  ∧ filter_products decimal_float decimal_float two_laptops intent_too_cheap
      None = Ok two_laptops
  ∧ (df_rows two_laptops = [] ↔
     Forall (fun r => cell_at r "category"
                      ≠ CStr (detect_category intent_too_cheap None))
       (df_rows two_laptops)).
Proof.
  assert (H1 : has_column two_laptops "category" = true) by reflexivity.
  assert (H2 : filter_products decimal_float decimal_float two_laptops
                 intent_too_cheap None = Ok two_laptops)
    by (vm_compute; reflexivity).
  split; [exact H1|]. split; [exact H2|].
  exact (filter_products_empty_iff decimal_float decimal_float two_laptops
           intent_too_cheap None two_laptops H1 H2).
Defined.


(** X10 at a price column with a text and a gap, lower being better. *)
Lemma normalize_monotone_witness :
  map (to_numeric decimal_float) mixed_column !! 0%nat = Some (Some 1)
  ∧ map (to_numeric decimal_float) mixed_column !! 4%nat = Some (Some 2)
  ∧ _normalize_series decimal_float mixed_column false !! 0%nat = Some (2 # 2)
  ∧ _normalize_series decimal_float mixed_column false !! 4%nat = Some (1 # 2)
  ∧ 1 <= 2
  ∧ 1 # 2 <= 2 # 2.
Proof.
  assert (H1 : map (to_numeric decimal_float) mixed_column !! 0%nat
               = Some (Some 1)) by reflexivity.
  assert (H2 : map (to_numeric decimal_float) mixed_column !! 4%nat
               = Some (Some 2)) by reflexivity.
  assert (H3 : _normalize_series decimal_float mixed_column false !! 0%nat
               = Some (2 # 2)) by (vm_compute; reflexivity).
  assert (H4 : _normalize_series decimal_float mixed_column false !! 4%nat
               = Some (1 # 2)) by (vm_compute; reflexivity).
  assert (H5 : 1 <= 2) by discriminate.
  repeat (split; [assumption|]).
  exact (normalize_monotone decimal_float mixed_column false 0 4 1 2
           (2 # 2) (1 # 2) H1 H2 H3 H4 H5).
Defined.


(** X12 at the two orders of two goals. *)
Lemma compute_weights_goal_order_witness :
  goal_strings simple_repr intent_battery
  = Ok ["Battery_Life"; "cheap gaming"]%string
  ∧ goal_strings simple_repr intent_battery_swapped
    = Ok ["cheap gaming"; "Battery_Life"]%string
  ∧ ["Battery_Life"; "cheap gaming"]%string
    ≡ₚ ["cheap gaming"; "Battery_Life"]%string
  ∧ _compute_weights simple_repr intent_battery "laptop"
    = _compute_weights simple_repr intent_battery_swapped "laptop".
Proof.
  assert (H1 : goal_strings simple_repr intent_battery
               = Ok ["Battery_Life"; "cheap gaming"]%string) by reflexivity.
  assert (H2 : goal_strings simple_repr intent_battery_swapped
               = Ok ["cheap gaming"; "Battery_Life"]%string) by reflexivity.
  assert (H3 : ["Battery_Life"; "cheap gaming"]%string
               ≡ₚ ["cheap gaming"; "Battery_Life"]%string)
    by apply perm_swap.
  repeat (split; [assumption|]).
  exact (compute_weights_goal_order simple_repr intent_battery
           intent_battery_swapped "laptop" _ _ H1 H2 H3).
Defined.

(** X13 at the goal "battery_life" after the goal "cheap gaming". *)
Lemma single_criterion_goal_witness :
  "battery"%string ∈ criteria
  ∧ hits "battery" "battery_life" = true
  ∧ (∀ c', c' ∈ criteria → c' ≠ "battery"%string →
           hits c' "battery_life" = false)
  ∧ (let w0 :=
       normalize_weights (bumped_weights "laptop" ["cheap gaming"%string]) in
     let w1 :=
       normalize_weights
         (bumped_weights "laptop"
            (["cheap gaming"%string] ++ ["battery_life"%string])) in
     weight_of "battery" w0 < weight_of "battery" w1
     ∧ ∀ c', c' ∈ criteria → c' ≠ "battery"%string →
             weight_of c' w1 <= weight_of c' w0).
Proof.
  assert (H1 : "battery"%string ∈ criteria)
    by (apply list_elem_of_In; cbn; auto 10).
  assert (H2 : hits "battery" "battery_life" = true) by reflexivity.
  assert (H3 : ∀ c', c' ∈ criteria → c' ≠ "battery"%string →
                     hits c' "battery_life" = false).
  { intros c' Hc' Hne. unfold criteria in Hc'.
    repeat (apply elem_of_cons in Hc' as [->|Hc'];
            [first [reflexivity|contradiction]|]).
    inversion Hc'. }
  repeat (split; [assumption|]).
  exact (single_criterion_goal "laptop" ["cheap gaming"%string]
           "battery_life" "battery" H1 H2 H3).
Defined.

(** X15 at the key [budget]. *)
Lemma rank_products_reads_goals_only_witness :
  "budget"%string ≠ "primary_goals"%string
  ∧ rank_products simple_repr decimal_float insertion_argsort
      (list (string + string)) scripted_llm short_prompt
      (<["budget"%string := PNum 1]> intent_battery) (Some three_laptops)
      three_answers
    = rank_products simple_repr decimal_float insertion_argsort
        (list (string + string)) scripted_llm short_prompt
        intent_battery (Some three_laptops) three_answers.
Proof.
  assert (H : "budget"%string ≠ "primary_goals"%string) by discriminate.
  split; [exact H|].
  exact (rank_products_reads_goals_only simple_repr decimal_float
           insertion_argsort (list (string + string)) scripted_llm
           short_prompt intent_battery (Some three_laptops) three_answers
           "budget" (PNum 1) H).
Defined.

(** X16 at a frame with one laptop. *)
Lemma single_product_score_witness :
  df_empty one_laptop = false
  ∧ df_rows one_laptop = [laptop_850]
  ∧ continuous_scores simple_repr decimal_float intent_battery one_laptop
    = Ok one_keys
  ∧ is_argsort (rev one_keys) (insertion_argsort (rev one_keys)) = true
  ∧ ∃ ranking item,
      fst (rank_products simple_repr decimal_float insertion_argsort
             (list (string + string)) scripted_llm short_prompt
             intent_battery (Some one_laptop) three_answers) = Ok ranking
      ∧ results ranking = [item]
      ∧ id item = row_get one_laptop laptop_850 "id"
      ∧ score item = 50%Z.
Proof.
  assert (H1 : df_empty one_laptop = false) by reflexivity.
  assert (H2 : df_rows one_laptop = [laptop_850]) by reflexivity.
  assert (H3 : continuous_scores simple_repr decimal_float intent_battery
                 one_laptop = Ok one_keys) by (vm_compute; reflexivity).
  assert (H4 : is_argsort (rev one_keys) (insertion_argsort (rev one_keys))
               = true) by (vm_compute; reflexivity).
  repeat (split; [assumption|]).
  exact (single_product_score simple_repr decimal_float insertion_argsort
           (list (string + string)) scripted_llm short_prompt intent_battery
           one_laptop laptop_850 three_answers one_keys H1 H2 H3 H4).
Defined.

(** X17 at the three laptops. *)
Lemma displayed_scores_descend_witness :
  df_empty three_laptops = false
  ∧ continuous_scores simple_repr decimal_float intent_battery three_laptops
    = Ok three_keys
  ∧ is_argsort (rev three_keys) (insertion_argsort (rev three_keys)) = true
  ∧ ∃ ranking,
      fst (rank_products simple_repr decimal_float insertion_argsort
             (list (string + string)) scripted_llm short_prompt
             intent_battery (Some three_laptops) three_answers) = Ok ranking
      ∧ StronglySorted (fun a b => (score b <= score a)%Z) (results ranking).
Proof.
  assert (H1 : df_empty three_laptops = false) by reflexivity.
  assert (H2 : continuous_scores simple_repr decimal_float intent_battery
                 three_laptops = Ok three_keys) by (vm_compute; reflexivity).
  assert (H3 : is_argsort (rev three_keys)
                 (insertion_argsort (rev three_keys)) = true)
    by (vm_compute; reflexivity).
  repeat (split; [assumption|]).
  exact (displayed_scores_descend simple_repr decimal_float insertion_argsort
           (list (string + string)) scripted_llm short_prompt intent_battery
           three_laptops three_answers three_keys H1 H2 H3).
Defined.

(** X18 at the ranking of the three laptops. *)
Lemma titles_truthy_witness :
  fst (rank_products simple_repr decimal_float insertion_argsort
         (list (string + string)) scripted_llm short_prompt
         intent_battery (Some three_laptops) three_answers) = Ok three_ranking
  ∧ (Forall (fun item => cell_truthy (title item) = true)
       (results three_ranking)
     ∧ (∀ df row s e,
          row_get df row "title" = Some CNaN →
          title (make_item df row s e) = CNaN)).
Proof.
  assert (H : fst (rank_products simple_repr decimal_float insertion_argsort
                     (list (string + string)) scripted_llm short_prompt
                     intent_battery (Some three_laptops) three_answers)
              = Ok three_ranking) by (vm_compute; reflexivity).
  split; [exact H|].
  exact (titles_truthy simple_repr decimal_float insertion_argsort
           (list (string + string)) scripted_llm short_prompt intent_battery
           (Some three_laptops) three_answers three_ranking H).
Defined.

(** X19 at a run whose intent names the category with capitals and
    whose budget leaves two of the three laptops. *)
Lemma run_pipeline_consistent_witness :
  Orchestrator.run_pipeline simple_repr decimal_float decimal_float
    insertion_argsort (list (string + string)) scripted_llm short_prompt
    scripted_json system_prompt three_laptops "cheap Laptop" run_answers
  = (inl (run_intent, run_products, run_ranking), [])
  ∧ ∃ d,
      as_intent run_intent = Ok d
      ∧ filter_products decimal_float decimal_float three_laptops d
          (Some "cheap Laptop"%string) = Ok run_products
      ∧ Forall (fun r => cell_at r "category"
                         = CStr (detect_category d (Some "cheap Laptop"%string)))
          (df_rows run_products)
      ∧ (df_rows run_products = [] → run_ranking = empty_ranking)
      ∧ (df_rows run_products ≠ [] →
         category run_ranking
         = Some (detect_category d (Some "cheap Laptop"%string))
         ∧ map fst (weights run_ranking) = criteria).
Proof.
  assert (H : Orchestrator.run_pipeline simple_repr decimal_float
                decimal_float insertion_argsort (list (string + string))
                scripted_llm short_prompt scripted_json system_prompt
                three_laptops "cheap Laptop" run_answers
              = (inl (run_intent, run_products, run_ranking), []))
    by (vm_compute; reflexivity).
  split; [exact H|].
  exact (run_pipeline_consistent simple_repr decimal_float decimal_float
           insertion_argsort (list (string + string)) scripted_llm
           short_prompt scripted_json system_prompt three_laptops
           "cheap Laptop" run_answers [] run_intent run_products run_ranking H).
Defined.

(** X20 at a query for a phone answered with a text that is no JSON. *)
Lemma pipeline_fallback_laptops_witness :
  LlmClient.chat_llm (list (string + string)) scripted_llm
    [system_prompt; "a phone with a big display"%string]
    [inl "Sure, here you go"%string]
  = (inl "Sure, here you go"%string, [])
  ∧ scripted_json "Sure, here you go" = None
  ∧ has_column three_laptops "category" = true
  ∧ (let laptops :=
       select (is_category "laptop") (_catalog_df decimal_float three_laptops) in
     match
       fst (Orchestrator.run_pipeline simple_repr decimal_float decimal_float
              insertion_argsort (list (string + string)) scripted_llm
              short_prompt scripted_json system_prompt three_laptops
              "a phone with a big display" [inl "Sure, here you go"%string])
     with
     | inl (intent, products, ranking) =>
         intent = fallback_intent "a phone with a big display"
         ∧ products = laptops
         ∧ (ranking = empty_ranking
            ∨ (category ranking = Some "laptop"%string
               ∧ weights ranking = normalize_weights (base_weights "laptop")))
     | inr (Raised e) => e = IndexError
     | inr _ => False
     end).
Proof.
  assert (H1 : LlmClient.chat_llm (list (string + string)) scripted_llm
                 [system_prompt; "a phone with a big display"%string]
                 [inl "Sure, here you go"%string]
               = (inl "Sure, here you go"%string, [])) by reflexivity.
  assert (H2 : scripted_json "Sure, here you go" = None) by reflexivity.
  assert (H3 : has_column three_laptops "category" = true) by reflexivity.
  split; [exact H1|]. split; [exact H2|]. split; [exact H3|].
  exact (pipeline_fallback_laptops simple_repr decimal_float decimal_float
           insertion_argsort (list (string + string)) scripted_llm
           short_prompt scripted_json system_prompt three_laptops
           "a phone with a big display" "Sure, here you go"
           [inl "Sure, here you go"%string] [] H1 H2 H3).
Defined.
